(** * mirror: a verified model of [src/mirror/main.py]

    The script mirrors container images (through [skopeo copy]) and files
    (download, transform, [oras push]) into an OCI registry, with a bounded
    retry loop around each unit of work.

    The model is a shallow embedding: every Python function that the
    properties below talk about is a Rocq function of the same name.
    Side effects are explicit: a function of the script becomes a function
    from a [World] (file system + chronological trace of external calls)
    to a result and a new [World].  Everything outside of the script (the
    child processes, the HTTP server, the temporary directory name, the
    gzip codec) is an oracle that is quantified over in the theorems. *)

From Stdlib Require Import ZArith Lia Ascii.
From stdpp Require Import gmap strings list fin_maps.

Open Scope Z_scope.
Open Scope string_scope.
Open Scope list_scope.

(** ** Strings, the way the script uses them *)

Module PyStr.

(** [sep.join(l)] *)
Fixpoint join (sep : string) (l : list string) : string :=
  match l with
  | [] => ""
  | [x] => x
  | x :: rest => x +:+ sep +:+ join sep rest
  end.

(** [s.startswith(p)] *)
Fixpoint startswith (p s : string) : bool :=
  match p, s with
  | EmptyString, _ => true
  | String a p', String b s' => if decide (a = b) then startswith p' s' else false
  | String _ _, EmptyString => false
  end.

(** [s[n:]] and [s[:n]] for [0 <= n]. *)
Fixpoint drop (n : nat) (s : string) : string :=
  match n, s with
  | O, _ => s
  | S n', String _ s' => drop n' s'
  | S _, EmptyString => EmptyString
  end.

Fixpoint take (n : nat) (s : string) : string :=
  match n, s with
  | O, _ => EmptyString
  | S n', String c s' => String c (take n' s')
  | S _, EmptyString => EmptyString
  end.

(** [s.replace(old, new)] for a non-empty [old]: scan from the left,
    replace every non-overlapping occurrence.  [skip] counts the
    characters of a matched occurrence that are still to be dropped. *)
Fixpoint replace_go (old new : string) (skip : nat) (s : string) : string :=
  match s with
  | EmptyString => EmptyString
  | String c s' =>
      match skip with
      | S k => replace_go old new k s'
      | O =>
          if startswith old s
          then new +:+ replace_go old new (String.length old - 1) s'
          else String c (replace_go old new 0 s')
      end
  end.

Definition replace (old new s : string) : string := replace_go old new 0 s.

(** Does the character occur in the string? *)
Fixpoint has_char (c : ascii) (s : string) : bool :=
  match s with
  | EmptyString => false
  | String b s' => if decide (b = c) then true else has_char c s'
  end.

(** [s.split("/")[-1]]: what follows the last slash. *)
Fixpoint last_segment (s : string) : string :=
  match s with
  | EmptyString => EmptyString
  | String c s' =>
      if has_char "/" s' then last_segment s'
      else if decide (c = "/"%char) then s' else s
  end.

(** [s.rfind(".")], [None] standing for Python's [-1]. *)
Fixpoint rfind_dot (s : string) : option nat :=
  match s with
  | EmptyString => None
  | String c s' =>
      match rfind_dot s' with
      | Some i => Some (S i)
      | None => if decide (c = "."%char) then Some O else None
      end
  end.

End PyStr.

(** ** Paths ([pathlib.Path]) *)

(** A path is its parent directory and its final component ([Path.name]).
    The empty [name] stands for a path without final component. *)
Record Path := mkPath { parent : string; name : string }.

Global Instance Path_eq_dec : EqDecision Path.
Proof. solve_decision. Defined.

Global Instance Path_countable : Countable Path.
Proof.
  apply (inj_countable' (fun p => (parent p, name p))
                        (fun q => mkPath q.1 q.2)).
  by intros [].
Defined.

(** [str(path)], as it is interpolated into a command line. *)
Definition path_str (p : Path) : string := parent p +:+ "/" +:+ name p.

(** [tmpdir_path / filename] *)
Definition path_join (dir filename : string) : Path := mkPath dir filename.

(** Python exceptions that the modelled code can raise. *)
Inductive Exn :=
| ValueError (msg : string)
| FileNotFoundError
| IsADirectoryError
| BadGzipFile
| ConnectionError
| HTTPError (status : Z)
| ChunkedEncodingError
| OSError
| OtherError (msg : string).

Inductive result (A : Type) :=
| Ok (a : A)
| Raise (e : Exn).
Arguments Ok {A} a.
Arguments Raise {A} e.

Definition is_ok {A} (r : result A) : bool :=
  match r with Ok _ => true | Raise _ => false end.

(** [PurePath.suffix] (CPython 3.8 - 3.12):
    [i = name.rfind('.'); name[i:] if 0 < i < len(name) - 1 else ''] *)
Definition suffix (p : Path) : string :=
  match PyStr.rfind_dot (name p) with
  | Some i =>
      if decide (0 < i < String.length (name p) - 1)%nat
      then PyStr.drop i (name p) else ""
  | None => ""
  end.

(** [PurePath.with_suffix(suffix)]: an invalid suffix or an empty name
    raise [ValueError]; otherwise the old suffix (if any) is cut off and
    the new one appended. *)
Definition with_suffix (p : Path) (sfx : string) : result Path :=
  if bool_decide (sfx ≠ "" ∧ PyStr.startswith "." sfx = false)
     || bool_decide (sfx = ".") || PyStr.has_char "/" sfx
  then Raise (ValueError "Invalid suffix")
  else if decide (name p = "") then Raise (ValueError "has an empty name")
  else
    let old_suffix := suffix p in
    if decide (old_suffix = "")
    then Ok (mkPath (parent p) (name p +:+ sfx))
    else Ok (mkPath (parent p)
               (PyStr.take (String.length (name p) - String.length old_suffix) (name p) +:+ sfx)).

(** ** The world *)

Abbreviation bytes := (list Byte.byte).

(** External calls, in the order the script makes them. *)
Inductive Event :=
| EvPopen (cmd : list string)        (* subprocess.Popen(cmd, ...) *)
| EvHttpGet (url : string)           (* requests.get(url, stream=True) *)
| EvOpenWrite (p : Path)             (* open(p, 'wb') in download_file *)
| EvSleep (seconds : N)              (* time.sleep(seconds) *)
| EvMkdtemp (dir : string)           (* tempfile.TemporaryDirectory() *)
| EvRmtree (dir : string).           (* ... and its cleanup *)

Global Instance Event_eq_dec : EqDecision Event.
Proof. solve_decision. Defined.

Record World := mkWorld {
  fs : gmap Path bytes;       (* regular files and their contents *)
  trace : list Event          (* oldest event first *)
}.

Definition log (e : Event) (w : World) : World :=
  mkWorld (fs w) (trace w ++ [e]).

Definition write_file (p : Path) (data : bytes) (w : World) : World :=
  mkWorld (<[p := data]> (fs w)) (trace w).

(** What a child process does: [Popen] itself raises (for instance the
    executable is missing), or the process runs and exits with a code. *)
Inductive PopenResult :=
| PopenRaises (e : Exn)
| Exited (returncode : Z).

(** What the HTTP server does: the request raises, or a response with a
    status code arrives.  The [Content-Length] header of a response is
    absent or an integer, and then its body streams completely
    ([complete = true]) or breaks after the bytes given; or the header is
    something that [int()] rejects. *)
Inductive HttpResult :=
| HttpRaises (e : Exn)
| HttpResponse (status : Z) (body : bytes) (complete : bool)
| HttpBadLength (status : Z).

(** Does [open(p, 'wb')] find a directory?  A final component that is
    empty, [.] or [..] names the parent directory or the directory above
    it; the file system holds regular files only, and a path at which it
    holds one is opened as that file. *)
Definition is_directory (files : gmap Path bytes) (p : Path) : bool :=
  bool_decide (files !! p = None)
  && (bool_decide (name p = "") || bool_decide (name p = ".")
      || bool_decide (name p = "..")).

(** The environment: every answer may depend on everything that happened
    so far, so that a retried call may get a different answer. *)
Record Env := mkEnv {
  popen : World -> list string -> PopenResult;
  http_get : World -> string -> HttpResult;
  mkdtemp : World -> string
}.

(** A stateful computation of the script. *)
Definition M (A : Type) : Type := World -> A * World.

Definition ret {A} (a : A) : M A := fun w => (a, w).
Definition bind {A B} (m : M A) (f : A -> M B) : M B :=
  fun w => let (a, w1) := m w in f a w1.

Declare Scope m_scope.
Delimit Scope m_scope with M.
Notation "x <- c1 ;; c2" := (bind c1 (fun x => c2))
  (at level 100, c1 at next level, right associativity) : m_scope.
Notation "c1 ;;; c2" := (bind c1 (fun _ => c2))
  (at level 100, right associativity) : m_scope.

Definition sleep (seconds : N) : M unit :=
  fun w => (tt, log (EvSleep seconds) w).

(** [range(a, b)] *)
Definition py_range (a b : Z) : list Z :=
  map (fun i => a + Z.of_nat i) (seq 0 (Z.to_nat (b - a))).

(** ** The transformer registry *)

(** A transformer maps an input path to an output path; it reads and
    writes files and may raise. *)
Abbreviation Transformer :=
  (Path -> gmap Path bytes -> result Path * gmap Path bytes).

(** [TRANSFORMERS[name] = func], the effect of the decorator
    [@register_transformer(name)]. *)
Definition register_transformer (name : string) (func : Transformer)
    (TRANSFORMERS : gmap string Transformer) : gmap string Transformer :=
  <[name := func]> TRANSFORMERS.

(** What reading a file through [gzip.open(..., 'rb')] to its end gives:
    the decompressed data, or an exception after some of the data has
    already been handed out. *)
Inductive GzResult :=
| GzData (data : bytes)
| GzFails (handed_out : bytes) (e : Exn).

Section Gunzip.

(** Python's [gzip] module is not part of the script: the decoder is a
    parameter. *)
Variable gzip_read : bytes -> GzResult.

(** [gunzip_transformer]: [gzip.open] opens the input (it must exist),
    then [open(output_path, 'wb')] creates or truncates the output (it
    must not be a directory), and only then [shutil.copyfileobj] reads the
    input to its end and writes what the decoder hands out. *)
Definition gunzip_transformer : Transformer :=
  fun input_path files =>
    match with_suffix input_path "" with
    | Raise e => (Raise e, files)
    | Ok output_path =>
        match files !! input_path with
        | None => (Raise FileNotFoundError, files)
        | Some _ =>
            if is_directory files output_path then (Raise IsADirectoryError, files)
            else
              let files1 := <[output_path := []]> files in
              match gzip_read (default [] (files1 !! input_path)) with
              | GzData data => (Ok output_path, <[output_path := data]> files1)
              | GzFails handed_out e => (Raise e, <[output_path := handed_out]> files1)
              end
        end
    end.

(** The registry as it is once the module is loaded. *)
Definition TRANSFORMERS0 : gmap string Transformer :=
  register_transformer "gunzip" gunzip_transformer ∅.

End Gunzip.

(** ** The mirroring functions *)

Definition OWNER_TOKEN : string := "{{GITHUB_REPOSITORY_OWNER}}".

(** The argument vector of [skopeo copy] in [mirror_image]. *)
Definition skopeo_cmd (registry_username registry_password source_full dest_full : string)
    : list string :=
  [ "skopeo"; "copy";
    "--dest-creds"; registry_username +:+ ":" +:+ registry_password;
    "docker://" +:+ source_full;
    "docker://" +:+ dest_full ].

(** The argument vector of [oras login] in [oras_login]. *)
Definition oras_login_cmd (registry_username registry_password : string) : list string :=
  [ "oras"; "login";
    "--username"; registry_username;
    "--password"; registry_password;
    "ghcr.io" ].

(** Python truthiness of an [Optional[str]]. *)
Definition truthy (s : option string) : bool :=
  match s with
  | None => false
  | Some m => bool_decide (m ≠ "")
  end.

(** The argument vector of [oras push] in [push_file_to_registry]. *)
Definition oras_push_cmd (dest_full : string) (file_path : Path) (mime_type : option string)
    : list string :=
  [ "oras"; "push"; "--disable-path-validation"; dest_full; path_str file_path ]
  ++ (if truthy mime_type then [ "--artifact-type"; default "" mime_type ] else []).

Section Script.

Variable env : Env.
Variable TRANSFORMERS : gmap string Transformer.

(** [subprocess.Popen(cmd, ...)], draining its output, [process.wait()]. *)
Definition run_process (cmd : list string) : M PopenResult :=
  fun w => (popen env w cmd, log (EvPopen cmd) w).

(** The loop of [mirror_image] over the attempt numbers still to run. *)
Fixpoint mirror_image_loop (cmd : list string) (retry_attempts : Z) (retry_delay : N)
    (attempts : list Z) : M bool :=
  match attempts with
  | [] => ret false
  | attempt :: rest =>
      (r <- run_process cmd ;;
       match r with
       | Exited returncode =>
           if decide (returncode = 0) then ret true
           else
             ((if decide (attempt < retry_attempts) then sleep retry_delay else ret tt) ;;;
              mirror_image_loop cmd retry_attempts retry_delay rest)
       | PopenRaises e =>
           ((if decide (attempt < retry_attempts) then sleep retry_delay else ret tt) ;;;
            mirror_image_loop cmd retry_attempts retry_delay rest)
       end)%M
  end.

Definition mirror_image (source destination tag registry_owner registry_username
    registry_password : string) (retry_attempts : Z) (retry_delay : N) : M bool :=
  let destination := PyStr.replace OWNER_TOKEN registry_owner destination in
  let source_full := source +:+ ":" +:+ tag in
  let dest_full := destination +:+ ":" +:+ tag in
  mirror_image_loop
    (skopeo_cmd registry_username registry_password source_full dest_full)
    retry_attempts retry_delay (py_range 1 (retry_attempts + 1)).

(** [download_file]: the request, [raise_for_status] (4xx and 5xx
    raise), [int()] of the [Content-Length] header, then the output file is
    opened (it must not be a directory) and the body is streamed into
    it. *)
Definition download_file (url : string) (output_path : Path) : M (result unit) :=
  fun w =>
    let w1 := log (EvHttpGet url) w in
    match http_get env w url with
    | HttpRaises e => (Raise e, w1)
    | HttpBadLength status =>
        if decide (400 <= status < 600) then (Raise (HTTPError status), w1)
        else (Raise (ValueError "invalid literal for int()"), w1)
    | HttpResponse status body complete =>
        if decide (400 <= status < 600) then (Raise (HTTPError status), w1)
        else if is_directory (fs w1) output_path then (Raise IsADirectoryError, w1)
        else
          let w2 := write_file output_path body (log (EvOpenWrite output_path) w1) in
          if complete then (Ok tt, w2) else (Raise ChunkedEncodingError, w2)
    end.

(** Run a transformer on the file system of the world. *)
Definition run_transformer (transformer : Transformer) (p : Path) : M (result Path) :=
  fun w =>
    let (r, files) := transformer p (fs w) in
    (r, mkWorld files (trace w)).

(** [apply_transforms]: the [for] loop over the steps, as a recursion
    on the steps still to apply. *)
Fixpoint apply_transforms (file_path : Path) (transforms : list (gmap string string))
    : M (result Path) :=
  match transforms with
  | [] => ret (Ok file_path)
  | transform :: rest =>
      let transform_type := transform !! "type" in
      match transform_type ≫= (fun t => TRANSFORMERS !! t) with
      | None => ret (Raise (ValueError "Unknown transformer type"))
      | Some transformer =>
          (r <- run_transformer transformer file_path ;;
           match r with
           | Ok current_path => apply_transforms current_path rest
           | Raise e => ret (Raise e)
           end)%M
      end
  end.

(** [oras_login]: no [try] around the child process, so an exception of
    [Popen] leaves the function. *)
Definition oras_login (registry_username registry_password : string) : M (result bool) :=
  (r <- run_process (oras_login_cmd registry_username registry_password) ;;
   match r with
   | PopenRaises e => ret (Raise e)
   | Exited returncode => ret (Ok (bool_decide (returncode = 0)))
   end)%M.

Definition push_file_to_registry (file_path : Path) (destination : string)
    (tags : list string) (registry_owner registry_username registry_password : string)
    (mime_type : option string) : M bool :=
  let destination := PyStr.replace OWNER_TOKEN registry_owner destination in
  let tags_str := PyStr.join "," tags in
  let dest_full := destination +:+ ":" +:+ tags_str in
  (r <- run_process (oras_push_cmd dest_full file_path mime_type) ;;
   match r with
   | Exited returncode => ret (bool_decide (returncode = 0))
   | PopenRaises e => ret false
   end)%M.

(** One pass through the [try] block of [mirror_file]: [Ok b] when the
    push returned [b], [Raise e] when the [except] clause is entered. *)
Definition mirror_file_try (source : string) (download_path : Path) (destination : string)
    (tags : list string) (transforms : list (gmap string string))
    (registry_owner registry_username registry_password : string)
    (mime_type : option string) : M (result bool) :=
  (d <- download_file source download_path ;;
   match d with
   | Raise e => ret (Raise e)
   | Ok _ =>
       (t <- (match transforms with
              | [] => ret (Ok download_path)
              | _ :: _ => apply_transforms download_path transforms
              end) ;;
        match t with
        | Raise e => ret (Raise e)
        | Ok processed_path =>
            (b <- push_file_to_registry processed_path destination tags
                    registry_owner registry_username registry_password mime_type ;;
             ret (Ok b))
        end)
   end)%M.

(** The loop of [mirror_file] over the attempt numbers still to run. *)
Fixpoint mirror_file_loop (source : string) (download_path : Path) (destination : string)
    (tags : list string) (transforms : list (gmap string string))
    (registry_owner registry_username registry_password : string)
    (mime_type : option string) (retry_attempts : Z) (retry_delay : N)
    (attempts : list Z) : M bool :=
  match attempts with
  | [] => ret false
  | attempt :: rest =>
      (r <- mirror_file_try source download_path destination tags transforms
              registry_owner registry_username registry_password mime_type ;;
       match r with
       | Ok true => ret true
       | Ok false =>
           ((if decide (attempt < retry_attempts) then sleep retry_delay else ret tt) ;;;
            mirror_file_loop source download_path destination tags transforms
              registry_owner registry_username registry_password mime_type
              retry_attempts retry_delay rest)
       | Raise e =>
           ((if decide (attempt < retry_attempts) then sleep retry_delay else ret tt) ;;;
            mirror_file_loop source download_path destination tags transforms
              registry_owner registry_username registry_password mime_type
              retry_attempts retry_delay rest)
       end)%M
  end.

(** Is the path inside the directory (at any depth)? *)
Definition under (dir : string) (p : Path) : bool :=
  bool_decide (parent p = dir) || PyStr.startswith (dir +:+ "/") (parent p).

(** Entering and leaving [with tempfile.TemporaryDirectory() as tmpdir]. *)
Definition make_tmpdir : M string :=
  fun w => let tmpdir := mkdtemp env w in (tmpdir, log (EvMkdtemp tmpdir) w).

Definition cleanup_tmpdir (tmpdir : string) : M unit :=
  fun w =>
    (tt, log (EvRmtree tmpdir)
           (mkWorld (filter (fun kv => under tmpdir kv.1 = false) (fs w)) (trace w))).

Definition mirror_file (source destination : string) (tags : list string)
    (transforms : list (gmap string string))
    (registry_owner registry_username registry_password : string)
    (mime_type : option string) (retry_attempts : Z) (retry_delay : N) : M bool :=
  (tmpdir <- make_tmpdir ;;
   let filename := PyStr.last_segment source in
   let download_path := path_join tmpdir filename in
   r <- mirror_file_loop source download_path destination tags transforms
          registry_owner registry_username registry_password mime_type
          retry_attempts retry_delay (py_range 1 (retry_attempts + 1)) ;;
   cleanup_tmpdir tmpdir ;;;
   ret r)%M.

End Script.

(** ** The coordinator ([main], from the failure counter on) *)

(** An entry of the [docker] list and an entry of the [files] list of the
    configuration, with the defaults of [main] applied. *)
Record DockerMirror := mkDockerMirror {
  d_source : string;
  d_destination : string;
  d_tags : list string
}.

Record FileMirror := mkFileMirror {
  f_source : string;
  f_destination : string;
  f_tags : list string;
  f_transforms : list (gmap string string);
  f_mime : option string
}.

(** How the process ends: [main] returns, [sys.exit(code)] is called, or
    an exception reaches the top level. *)
Inductive Termination :=
| Returned
| SysExit (code : Z)
| Uncaught (e : Exn).

(** The exit status the operating system sees. *)
Definition exit_code (t : Termination) : Z :=
  match t with
  | Returned => 0
  | SysExit code => code
  | Uncaught _ => 1
  end.

Section Coordinator.

Variable env : Env.
Variable TRANSFORMERS : gmap string Transformer.
Variables registry_owner registry_username registry_password : string.
Variable retry_attempts : Z.
Variable retry_delay : N.

(** [for tag in tags: if not mirror_image(...): failed_mirrors += 1] *)
Fixpoint mirror_tags (source destination : string) (tags : list string)
    (failed_mirrors : Z) : M Z :=
  match tags with
  | [] => ret failed_mirrors
  | tag :: rest =>
      (ok <- mirror_image env source destination tag registry_owner
               registry_username registry_password retry_attempts retry_delay ;;
       mirror_tags source destination rest
         (if ok then failed_mirrors else failed_mirrors + 1))%M
  end.

(** [for i, mirror in enumerate(docker_mirrors): ...] *)
Fixpoint process_docker (docker_mirrors : list DockerMirror) (failed_mirrors : Z) : M Z :=
  match docker_mirrors with
  | [] => ret failed_mirrors
  | mirror :: rest =>
      (failed_mirrors <- mirror_tags (d_source mirror) (d_destination mirror)
                           (d_tags mirror) failed_mirrors ;;
       process_docker rest failed_mirrors)%M
  end.

(** [for i, file_config in enumerate(file_mirrors): ...] *)
Fixpoint process_files (file_mirrors : list FileMirror) (failed_mirrors : Z) : M Z :=
  match file_mirrors with
  | [] => ret failed_mirrors
  | file_config :: rest =>
      (ok <- mirror_file env TRANSFORMERS (f_source file_config)
               (f_destination file_config) (f_tags file_config)
               (f_transforms file_config) registry_owner registry_username
               registry_password (f_mime file_config) retry_attempts retry_delay ;;
       process_files rest (if ok then failed_mirrors else failed_mirrors + 1))%M
  end.

(** The end of [main]: the summary and the exit. *)
Definition finish (failed_mirrors : Z) : Termination * Z :=
  if decide (failed_mirrors > 0) then (SysExit 1, failed_mirrors)
  else (Returned, failed_mirrors).

(** [main], from [failed_mirrors = 0] on.  The result is how the process
    ends, with the value of [failed_mirrors] at that point. *)
Definition main (docker_mirrors : list DockerMirror) (file_mirrors : list FileMirror)
    : M (Termination * Z) :=
  (failed_mirrors <- process_docker docker_mirrors 0 ;;
   match file_mirrors with
   | [] => ret (finish failed_mirrors)
   | _ :: _ =>
       (logged_in <- oras_login env registry_username registry_password ;;
        match logged_in with
        | Raise e => ret (Uncaught e, failed_mirrors)
        | Ok false => ret (SysExit 1, failed_mirrors)
        | Ok true =>
            (failed_mirrors <- process_files file_mirrors failed_mirrors ;;
             ret (finish failed_mirrors))
        end)
   end)%M.

(** *** What happened during a run, job by job

    The outcomes of a run as a reader of its log would list them: one
    boolean per image tag, the login if it was tried, one boolean per
    file job that was processed. *)
Fixpoint tag_outcomes (source destination : string) (tags : list string) : M (list bool) :=
  match tags with
  | [] => ret []
  | tag :: rest =>
      (ok <- mirror_image env source destination tag registry_owner
               registry_username registry_password retry_attempts retry_delay ;;
       oks <- tag_outcomes source destination rest ;;
       ret (ok :: oks))%M
  end.

Fixpoint docker_outcomes (docker_mirrors : list DockerMirror) : M (list bool) :=
  match docker_mirrors with
  | [] => ret []
  | mirror :: rest =>
      (oks <- tag_outcomes (d_source mirror) (d_destination mirror) (d_tags mirror) ;;
       oks' <- docker_outcomes rest ;;
       ret (oks ++ oks')%list)%M
  end.

Fixpoint file_outcomes (file_mirrors : list FileMirror) : M (list bool) :=
  match file_mirrors with
  | [] => ret []
  | file_config :: rest =>
      (ok <- mirror_file env TRANSFORMERS (f_source file_config)
               (f_destination file_config) (f_tags file_config)
               (f_transforms file_config) registry_owner registry_username
               registry_password (f_mime file_config) retry_attempts retry_delay ;;
       oks <- file_outcomes rest ;;
       ret (ok :: oks))%M
  end.

Record Outcomes := mkOutcomes {
  image_results : list bool;            (* one per image tag, in order *)
  login_result : option (result bool);  (* [None]: no login was tried *)
  file_results : list bool              (* one per processed file job *)
}.

Definition outcomes (docker_mirrors : list DockerMirror) (file_mirrors : list FileMirror)
    : M Outcomes :=
  (images <- docker_outcomes docker_mirrors ;;
   match file_mirrors with
   | [] => ret (mkOutcomes images None [])
   | _ :: _ =>
       (logged_in <- oras_login env registry_username registry_password ;;
        match logged_in with
        | Ok true =>
            (files <- file_outcomes file_mirrors ;;
             ret (mkOutcomes images (Some logged_in) files))
        | _ => ret (mkOutcomes images (Some logged_in) [])
        end)
   end)%M.

End Coordinator.

(** Every image tag and every file job of the configuration has an
    outcome, and it is a success. *)
Definition all_mirrored (docker_mirrors : list DockerMirror) (file_mirrors : list FileMirror)
    (o : Outcomes) : Prop :=
  length (image_results o) = length (concat (map d_tags docker_mirrors)) ∧
  length (file_results o) = length file_mirrors ∧
  Forall (fun ok => ok = true) (image_results o ++ file_results o).

(** The number of failed outcomes. *)
Definition failures (o : Outcomes) : Z :=
  Z.of_nat (length (filter (fun ok => ok = false) (image_results o ++ file_results o))).

(** ** Concrete environments, for running the model *)

Import Byte.

(** A stand-in for a gzip codec: the two magic bytes of a gzip member in
    front of the data.  Reading an empty file gives no data, as
    [gzip.open] does. *)
Definition framed_compress (data : bytes) : bytes := x1f :: x8b :: data.

Definition framed_read (content : bytes) : GzResult :=
  match content with
  | [] => GzData []
  | x1f :: x8b :: data => GzData data
  | _ => GzFails [] BadGzipFile
  end.

Definition is_popen (e : Event) : bool :=
  match e with EvPopen _ => true | _ => false end.

Definition is_http_get (e : Event) : bool :=
  match e with EvHttpGet _ => true | _ => false end.

Definition is_sleep (e : Event) : bool :=
  match e with EvSleep _ => true | _ => false end.

(** [count f l]: how many events of [l] satisfy [f]. *)
Definition count (f : Event -> bool) (l : list Event) : nat :=
  length (filter (fun e => f e = true) l).

(** Every download delivers [body]; the first [failing] child processes
    exit with status 1, the following ones with status 0. *)
Definition env_flaky (failing : nat) (body : bytes) : Env :=
  mkEnv (fun w _ => if decide (count is_popen (trace w) < failing)%nat
                    then Exited 1 else Exited 0)
        (fun _ _ => HttpResponse 200 body true)
        (fun _ => "/tmp/tmpmirror").

(** Nothing ever fails. *)
Definition env_ok (body : bytes) : Env := env_flaky 0 body.

(** Child processes work, the login excepted. *)
Definition env_no_login : Env :=
  mkEnv (fun _ cmd => match cmd with
                      | "oras" :: "login" :: _ => Exited 1
                      | _ => Exited 0
                      end)
        (fun _ _ => HttpResponse 200 [] true)
        (fun _ => "/tmp/tmpmirror").

Definition empty_world : World := mkWorld ∅ [].

Definition step_of_type (t : string) : gmap string string := {[ "type" := t ]}.

(** ** The retry loop, once

    Both loops of the script have the same shape; [retry_loop] is that
    shape over an arbitrary operation [op], which answers [true] when the
    attempt succeeded and [false] when it returned false or raised. *)

Section Retry.

Variable op : M bool.
Variable retry_attempts : Z.
Variable retry_delay : N.

(** What follows a failed attempt. *)
Definition pause (attempt : Z) : M unit :=
  if decide (attempt < retry_attempts) then sleep retry_delay else ret tt.

Fixpoint retry_loop (attempts : list Z) : M bool :=
  match attempts with
  | [] => ret false
  | attempt :: rest =>
      (ok <- op ;;
       if ok then ret true else (pause attempt ;;; retry_loop rest))%M
  end.

(** [attempt_world a j w]: the world in which attempt number [a + j]
    starts, when the loop enters attempt [a] in world [w] and the [j]
    attempts [a], ..., [a + j - 1] fail. *)
Fixpoint attempt_world (a : Z) (j : nat) (w : World) : World :=
  match j with
  | O => w
  | S j' => attempt_world (a + 1) j' (snd (pause a (snd (op w))))
  end.

(** Does attempt number [k] (counted from 1) of a loop entered in world
    [w] succeed, given that the attempts before it failed? *)
Definition attempt_succeeds (k : nat) (w : World) : bool :=
  fst (op (attempt_world 1 (k - 1) w)).

End Retry.

(** The operation under the loop of [mirror_image]: one run of the copy
    tool. *)
Definition image_op (env : Env) (cmd : list string) : M bool :=
  (r <- run_process env cmd ;;
   ret (match r with
        | Exited returncode => bool_decide (returncode = 0)
        | PopenRaises _ => false
        end))%M.

(** The operation under the loop of [mirror_file]: one pass through the
    [try] block. *)
Definition file_op (env : Env) (TRANSFORMERS : gmap string Transformer)
    (source : string) (download_path : Path) (destination : string)
    (tags : list string) (transforms : list (gmap string string))
    (registry_owner registry_username registry_password : string)
    (mime_type : option string) : M bool :=
  (r <- mirror_file_try env TRANSFORMERS source download_path destination tags
          transforms registry_owner registry_username registry_password mime_type ;;
   ret (match r with
        | Ok b => b
        | Raise _ => false
        end))%M.

(** The events of one pass through the [try] block of [mirror_file],
    the request apart. *)
Definition file_try_event (download_path : Path) (dest_full : string)
    (mime : option string) (e : Event) : Prop :=
  e = EvOpenWrite download_path
  \/ exists file_path, e = EvPopen (oras_push_cmd dest_full file_path mime).

(** Attempt [k] is the first one that succeeds. *)
Definition first_success (op : M bool) (retry_attempts : Z) (retry_delay : N)
    (k : nat) (w : World) : Prop :=
  (1 <= k)%nat
  /\ (forall j, (1 <= j < k)%nat ->
        attempt_succeeds op retry_attempts retry_delay j w = false)
  /\ attempt_succeeds op retry_attempts retry_delay k w = true.

(** None of the [retry_attempts] attempts succeeds. *)
Definition all_fail (op : M bool) (retry_attempts : Z) (retry_delay : N)
    (w : World) : Prop :=
  forall j, (1 <= j)%nat -> Z.of_nat j <= retry_attempts ->
    attempt_succeeds op retry_attempts retry_delay j w = false.

(** The operation that [mirror_image] retries for a tag. *)
Definition image_attempt (env : Env) (source destination tag registry_owner
    registry_username registry_password : string) : M bool :=
  image_op env
    (skopeo_cmd registry_username registry_password (source +:+ ":" +:+ tag)
       (PyStr.replace OWNER_TOKEN registry_owner destination +:+ ":" +:+ tag)).

(** The operation that [mirror_file] retries for a job whose temporary
    directory is [tmpdir]. *)
Definition file_attempt (env : Env) (TRANSFORMERS : gmap string Transformer)
    (source destination : string) (tags : list string)
    (transforms : list (gmap string string))
    (registry_owner registry_username registry_password : string)
    (mime_type : option string) (tmpdir : string) : M bool :=
  file_op env TRANSFORMERS source (path_join tmpdir (PyStr.last_segment source))
    destination tags transforms registry_owner registry_username registry_password
    mime_type.

(** [time.sleep(seconds)] with exactly this argument. *)
Definition is_sleep_of (seconds : N) (e : Event) : bool :=
  bool_decide (e = EvSleep seconds).

(** Classes of events that the body of a file attempt, the request
    apart, and the temporary directory do not belong to. *)
Definition quiet (f : Event -> bool) : Prop :=
  (forall p, f (EvOpenWrite p) = false)
  /\ (forall cmd, f (EvPopen cmd) = false)
  /\ (forall d, f (EvMkdtemp d) = false)
  /\ (forall d, f (EvRmtree d) = false).

(** ** The pipeline as a fold

    The same pipeline, said as the text of the design says it: a left
    fold of the steps over the initial path, each step consuming the
    output path of the one before it. *)

(** The transformer a step names, if it is registered. *)
Definition resolve_step (TRANSFORMERS : gmap string Transformer)
    (transform : gmap string string) : option Transformer :=
  transform !! "type" ≫= (fun t => TRANSFORMERS !! t).

(** A step whose type is missing from the registry. *)
Definition unregistered (TRANSFORMERS : gmap string Transformer)
    (transform : gmap string string) : Prop :=
  resolve_step TRANSFORMERS transform = None.

(** One step applied to the outcome of the steps before it. *)
Definition transform_step (TRANSFORMERS : gmap string Transformer)
    (before : M (result Path)) (transform : gmap string string) : M (result Path) :=
  (r <- before ;;
   match r with
   | Raise e => ret (Raise e)
   | Ok current_path =>
       match resolve_step TRANSFORMERS transform with
       | None => ret (Raise (ValueError "Unknown transformer type"))
       | Some transformer => run_transformer transformer current_path
       end
   end)%M.

Definition apply_transforms_fold (TRANSFORMERS : gmap string Transformer)
    (file_path : Path) (transforms : list (gmap string string)) : M (result Path) :=
  fold_left (transform_step TRANSFORMERS) transforms (ret (Ok file_path)).

(** ** Classes of events *)

(** A computation only adds events of class [P] to the trace. *)
Definition emits {A} (P : Event -> Prop) (m : M A) : Prop :=
  forall w, exists delta,
    trace (snd (m w)) = trace w ++ delta /\ Forall P delta.

(** Does the command line start with [tool subcommand]? *)
Definition runs (tool subcommand : string) (cmd : list string) : bool :=
  match cmd with
  | a :: b :: _ => bool_decide (a = tool) && bool_decide (b = subcommand)
  | _ => false
  end.

(** The events of the image phase: runs of [skopeo copy] and sleeps. *)
Definition is_image_job_event (e : Event) : bool :=
  match e with
  | EvPopen cmd => runs "skopeo" "copy" cmd
  | EvSleep _ => true
  | _ => false
  end.

(** The registry login. *)
Definition is_login (e : Event) : bool :=
  match e with
  | EvPopen cmd => runs "oras" "login" cmd
  | _ => false
  end.

(** The push of an artifact. *)
Definition is_push (e : Event) : bool :=
  match e with
  | EvPopen cmd => runs "oras" "push" cmd
  | _ => false
  end.

(** The events of a file job: its temporary directory, its downloads,
    its pushes and its sleeps; the only child process is [oras push]. *)
Definition is_file_job_event (e : Event) : bool :=
  match e with
  | EvPopen cmd => is_push e
  | _ => true
  end.

(** The reading of "fails before any network fetch or any push call": the
    job returns [False], and its run adds neither an HTTP request nor a
    child process to the trace. *)
Definition fails_before_fetch_and_push (env : Env) (T : gmap string Transformer)
    (source destination : string) (tags : list string)
    (transforms : list (gmap string string)) (owner user password : string)
    (mime : option string) (retry_attempts : Z) (retry_delay : N) (w : World) : Prop :=
  let rf := mirror_file env T source destination tags transforms owner user password
              mime retry_attempts retry_delay w in
  fst rf = false
  /\ count is_http_get (trace (snd rf)) = count is_http_get (trace w)
  /\ count is_popen (trace (snd rf)) = count is_popen (trace w).

(** The events of a file job between the creation and the removal of its
    temporary directory [tmpdir]: requests for the source, downloads
    written into [tmpdir], pushes to the resolved destination, sleeps. *)
Definition file_loop_event (source tmpdir dest_full : string) (mime : option string)
    (retry_delay : N) (e : Event) : Prop :=
  e = EvHttpGet source
  \/ file_try_event (path_join tmpdir (PyStr.last_segment source)) dest_full mime e
  \/ e = EvSleep retry_delay.

(** The events of copying the tags [tags] of an image job: runs of the
    copy tool from [source:tag] to [resolved:tag], for tags of the job,
    and sleeps. *)
Definition image_job_event (source resolved user password : string)
    (tags : list string) (retry_delay : N) (e : Event) : Prop :=
  (exists tag, tag ∈ tags
     /\ e = EvPopen (skopeo_cmd user password (source +:+ ":" +:+ tag)
                       (resolved +:+ ":" +:+ tag)))
  \/ e = EvSleep retry_delay.

(** How many of the outcomes are failures. *)
Definition count_false (oks : list bool) : Z :=
  Z.of_nat (length (filter (fun ok => ok = false) oks)).

(** ** Tool checks ([check_tool_availability], [verify_required_tools]) *)

(** What [subprocess.run(cmd, capture_output=True, text=True, timeout=5)]
    does: the process ends within the timeout with a return code, the
    timeout expires, the executable is not found, or another exception is
    raised (these are not caught by the script). *)
Inductive RunResult :=
| RunCompleted (returncode : Z)
| RunTimeoutExpired
| RunFileNotFound
| RunRaises (e : Exn).

(** The dictionary [version_flags] of [check_tool_availability]. *)
Definition version_flags : gmap string (list string) :=
  <["oras" := ["version"]]> (<["skopeo" := ["--version"]]> ∅).

(** The command line that probes a tool. *)
Definition probe_cmd (tool : string) : list string :=
  tool :: default ["--version"] (version_flags !! tool).

Section Tools.

Variable subprocess_run : World -> list string -> RunResult.

Definition check_tool_availability (tool : string) : M (result bool) :=
  fun w =>
    let flags := default ["--version"] (version_flags !! tool) in
    let w1 := log (EvPopen (tool :: flags)) w in
    match subprocess_run w (tool :: flags) with
    | RunCompleted returncode => (Ok (bool_decide (returncode = 0)), w1)
    | RunTimeoutExpired => (Ok false, w1)
    | RunFileNotFound => (Ok false, w1)
    | RunRaises e => (Raise e, w1)
    end.

(** The loop of [verify_required_tools] over the tools still to check. *)
Fixpoint missing_tools_loop (tools : list string) (missing_tools : list string)
    : M (result (list string)) :=
  match tools with
  | [] => ret (Ok missing_tools)
  | tool :: rest =>
      (r <- check_tool_availability tool ;;
       match r with
       | Raise e => ret (Raise e)
       | Ok available =>
           missing_tools_loop rest
             (if available then missing_tools else missing_tools ++ [tool])
       end)%M
  end.

(** [verify_required_tools]: returns, or [sys.exit(1)] when a tool is
    missing. *)
Definition verify_required_tools (tools : list string) : M Termination :=
  (r <- missing_tools_loop tools [] ;;
   match r with
   | Raise e => ret (Uncaught e)
   | Ok [] => ret Returned
   | Ok (_ :: _) => ret (SysExit 1)
   end)%M.

End Tools.

(** ** The start of [main]: configuration, tools, credentials, settings *)

(** The parsed configuration: the [docker] and [files] lists and the two
    settings, each of them optional. *)
Record Config := mkConfig {
  c_docker : option (list DockerMirror);
  c_files : option (list FileMirror);
  c_retry_attempts : option Z;
  c_retry_delay : option N
}.

(** Python truthiness of an optional list. *)
Definition nonempty {A} (l : option (list A)) : bool :=
  match l with
  | Some (_ :: _) => true
  | _ => false
  end.

(** [a or b] on optional strings. *)
Definition py_or (a b : option string) : option string :=
  if truthy a then a else b.

Definition required_tools (config : Config) : list string :=
  (if nonempty (c_docker config) then ["skopeo"] else [])
  ++ (if nonempty (c_files config) then ["oras"] else []).

(** The three values that [main] reads from the process environment. *)
Definition registry_owner_of (environ : gmap string string) : option string :=
  py_or (py_or (environ !! "GITHUB_TARGET_REPO_OWNER")
               (environ !! "GITHUB_REPOSITORY_OWNER"))
        (environ !! "GITHUB_ACTOR").

Definition registry_username_of (environ : gmap string string) : option string :=
  py_or (environ !! "GITHUB_USERNAME") (environ !! "GITHUB_ACTOR").

Definition registry_password_of (environ : gmap string string) : option string :=
  environ !! "GITHUB_TOKEN".

(** The whole of [main].  [config] is [None] when the configuration file
    does not exist. *)
Definition script (subprocess_run : World -> list string -> RunResult) (env : Env)
    (TRANSFORMERS : gmap string Transformer) (config : option Config)
    (environ : gmap string string) : M Termination :=
  match config with
  | None => ret (SysExit 1)
  | Some config =>
      (checked <- verify_required_tools subprocess_run (required_tools config) ;;
       match checked with
       | Returned =>
           let registry_owner := registry_owner_of environ in
           let registry_username := registry_username_of environ in
           let registry_password := registry_password_of environ in
           if negb (truthy registry_owner) || negb (truthy registry_username)
              || negb (truthy registry_password)
           then ret (SysExit 1)
           else
             let retry_attempts := default 3 (c_retry_attempts config) in
             let retry_delay := default 1%N (c_retry_delay config) in
             (r <- main env TRANSFORMERS (default "" registry_owner)
                     (default "" registry_username) (default "" registry_password)
                     retry_attempts retry_delay
                     (default [] (c_docker config)) (default [] (c_files config)) ;;
              ret (fst r))
       | stopped => ret stopped
       end)%M
  end.

(** The command line as [mirror_image] prints it before each attempt:
    [' '.join(cmd[:3]) [credentials hidden] ' '.join(cmd[4:])]. *)
Definition running_line (cmd : list string) : string :=
  "Running: " +:+ PyStr.join " " (take 3 cmd) +:+ " [credentials hidden] "
  +:+ PyStr.join " " (drop 4 cmd).

(** An environment in which the tool [missing] is not installed and every
    other tool answers its version probe. *)
Definition run_without (missing : string) : World -> list string -> RunResult :=
  fun _ cmd =>
    match cmd with
    | tool :: _ => if decide (tool = missing) then RunFileNotFound else RunCompleted 0
    | [] => RunFileNotFound
    end.

(** Every tool answers its version probe. *)
Definition run_all_ok : World -> list string -> RunResult :=
  fun _ _ => RunCompleted 0.

(** Does a tool pass its probe, for a given answer to the probe? *)
Definition passes (answer : RunResult) : bool :=
  match answer with
  | RunCompleted returncode => bool_decide (returncode = 0)
  | _ => false
  end.

(** * Properties *)

(** ** Ranges and counting *)

Lemma py_range_nil (a b : Z) : b <= a -> py_range a b = [].
Proof.
  intros H. unfold py_range.
  replace (Z.to_nat (b - a)) with O by lia. reflexivity.
Qed.

Lemma py_range_cons (a b : Z) : a < b -> py_range a b = a :: py_range (a + 1) b.
Proof.
  intros H. unfold py_range.
  replace (Z.to_nat (b - a)) with (S (Z.to_nat (b - (a + 1)))) by lia.
  cbn [seq map]. f_equal; [lia|].
  rewrite <- seq_shift, map_map.
  apply map_ext. intros i. lia.
Qed.

Lemma py_range_length (a b : Z) : length (py_range a b) = Z.to_nat (b - a).
Proof. unfold py_range. by rewrite length_map, length_seq. Qed.

Lemma count_nil (f : Event -> bool) : count f [] = O.
Proof. reflexivity. Qed.

Lemma count_cons (f : Event -> bool) (e : Event) (l : list Event) :
  count f (e :: l) = ((if f e then 1 else 0) + count f l)%nat.
Proof.
  unfold count. rewrite filter_cons.
  destruct (f e); case_decide; try done.
Qed.

Lemma count_app (f : Event -> bool) (l1 l2 : list Event) :
  count f (l1 ++ l2) = (count f l1 + count f l2)%nat.
Proof. unfold count. by rewrite filter_app, length_app. Qed.

Lemma count_none (f : Event -> bool) (l : list Event) :
  Forall (fun e => f e = false) l -> count f l = O.
Proof.
  induction 1 as [|e l He _ IH]; [done|].
  rewrite count_cons, He, IH. done.
Qed.

Lemma count_all (f : Event -> bool) (l : list Event) :
  Forall (fun e => f e = true) l -> count f l = length l.
Proof.
  induction 1 as [|e l He _ IH]; [done|].
  rewrite count_cons, He, IH. done.
Qed.

Lemma count_log (f : Event -> bool) (e : Event) (w : World) :
  count f (trace (log e w)) = (count f (trace w) + (if f e then 1 else 0))%nat.
Proof. unfold log. cbn [trace]. rewrite count_app, count_cons, count_nil. lia. Qed.

(** ** The retry loop *)

Section RetryFacts.

Variable op : M bool.
Variable retry_attempts : Z.
Variable retry_delay : N.

Local Abbreviation loop := (retry_loop op retry_attempts retry_delay).
Local Abbreviation world := (attempt_world op retry_attempts retry_delay).

Lemma retry_loop_step (a : Z) (rest : list Z) (w : World) :
  loop (a :: rest) w
  = if fst (op w) then (true, snd (op w))
    else loop rest (snd (pause retry_attempts retry_delay a (snd (op w)))).
Proof.
  cbn [retry_loop]. unfold bind, ret.
  destruct (op w) as [[] w1]; cbn [fst snd]; [done|].
  by destruct (pause retry_attempts retry_delay a w1) as [[] w2].
Qed.

(** The loop stops at the first attempt that succeeds. *)
Lemma retry_loop_success (k : nat) : forall (a b : Z) (w : World),
  a + Z.of_nat k < b ->
  (forall j, (j < k)%nat -> fst (op (world a j w)) = false) ->
  fst (op (world a k w)) = true ->
  loop (py_range a b) w = (true, snd (op (world a k w))).
Proof.
  induction k as [|k IH]; intros a b w Hlt Hfail Hok.
  - rewrite py_range_cons, retry_loop_step by lia.
    cbn [attempt_world] in *. by rewrite Hok.
  - rewrite py_range_cons, retry_loop_step by lia.
    pose proof (Hfail O ltac:(lia)) as H0. cbn [attempt_world] in *.
    rewrite H0. apply IH; [lia| |done].
    intros j Hj. apply (Hfail (S j)). lia.
Qed.

(** When no attempt succeeds, the loop runs all of them. *)
Lemma retry_loop_failure (m : nat) : forall (a b : Z) (w : World),
  m = Z.to_nat (b - a) ->
  (forall j, (j < m)%nat -> fst (op (world a j w)) = false) ->
  loop (py_range a b) w = (false, world a m w).
Proof.
  induction m as [|m IH]; intros a b w Hm Hfail.
  - rewrite py_range_nil by lia. reflexivity.
  - rewrite py_range_cons, retry_loop_step by lia.
    pose proof (Hfail O ltac:(lia)) as H0. cbn [attempt_world] in *.
    rewrite H0. apply IH; [lia|].
    intros j Hj. apply (Hfail (S j)). lia.
Qed.

(** Counting events along the failed attempts.  [f] is a class of
    events of which every attempt emits exactly [c] and a pause [s] when
    it sleeps. *)
Section Counting.

Variable f : Event -> bool.
Variable c : nat.
Hypothesis op_emits : forall w,
  count f (trace (snd (op w))) = (count f (trace w) + c)%nat.

Lemma pause_count (a : Z) (w : World) :
  count f (trace (snd (pause retry_attempts retry_delay a w)))
  = (count f (trace w)
     + (if decide (a < retry_attempts)%Z then
          if f (EvSleep retry_delay) then 1 else 0
        else 0))%nat.
Proof.
  unfold pause. case_decide; cbn [sleep ret snd].
  - apply count_log.
  - lia.
Qed.

Lemma attempt_world_count (j : nat) : forall (a : Z) (w : World),
  count f (trace (world a j w))
  = (count f (trace w) + j * c
     + (if f (EvSleep retry_delay)
        then Z.to_nat (Z.min (Z.of_nat j) (retry_attempts - a)%Z) else 0))%nat.
Proof.
  induction j as [|j IH]; intros a w.
  - cbn. destruct (f _); lia.
  - cbn [attempt_world]. rewrite IH, pause_count, op_emits.
    destruct (f (EvSleep retry_delay)); case_decide; lia.
Qed.

End Counting.

End RetryFacts.

(** ** The two loops of the script are the retry loop *)

Lemma mirror_image_loop_retry (env : Env) (cmd : list string) (retry_attempts : Z)
    (retry_delay : N) (attempts : list Z) : forall w,
  mirror_image_loop env cmd retry_attempts retry_delay attempts w
  = retry_loop (image_op env cmd) retry_attempts retry_delay attempts w.
Proof.
  induction attempts as [|attempt rest IH]; intros w; [done|].
  cbn [mirror_image_loop retry_loop]. unfold image_op, bind, ret, run_process, pause.
  destruct (popen env w cmd) as [e|returncode].
  - case_decide; cbn; apply IH.
  - rewrite bool_decide_decide.
    destruct (decide (returncode = 0)); [done|].
    case_decide; cbn; apply IH.
Qed.

Lemma mirror_file_loop_retry (env : Env) (T : gmap string Transformer)
    (source : string) (download_path : Path) (destination : string) (tags : list string)
    (transforms : list (gmap string string)) (owner user password : string)
    (mime : option string) (retry_attempts : Z) (retry_delay : N)
    (attempts : list Z) : forall w,
  mirror_file_loop env T source download_path destination tags transforms owner user
    password mime retry_attempts retry_delay attempts w
  = retry_loop (file_op env T source download_path destination tags transforms owner
                  user password mime) retry_attempts retry_delay attempts w.
Proof.
  induction attempts as [|attempt rest IH]; intros w; [done|].
  cbn [mirror_file_loop retry_loop]. unfold file_op, bind, ret, pause.
  destruct (mirror_file_try _ _ _ _ _ _ _ _ _ _ _ w) as [[[]|e] w1].
  - done.
  - case_decide; cbn; apply IH.
  - case_decide; cbn; apply IH.
Qed.

(** ** What each function adds to the trace *)

Lemma run_process_trace (env : Env) (cmd : list string) (w : World) :
  trace (snd (run_process env cmd w)) = trace w ++ [EvPopen cmd].
Proof. reflexivity. Qed.

Lemma image_op_trace (env : Env) (cmd : list string) (w : World) :
  trace (snd (image_op env cmd w)) = trace w ++ [EvPopen cmd].
Proof. reflexivity. Qed.

Lemma image_op_fs (env : Env) (cmd : list string) (w : World) :
  fs (snd (image_op env cmd w)) = fs w.
Proof. reflexivity. Qed.

Lemma download_file_trace (env : Env) (url : string) (output_path : Path) (w : World) :
  exists delta,
    trace (snd (download_file env url output_path w)) = trace w ++ EvHttpGet url :: delta
    /\ Forall (fun e => e = EvOpenWrite output_path) delta.
Proof.
  unfold download_file.
  destruct (http_get env w url) as [e|status body complete|status].
  - exists []. cbn. done.
  - case_decide; [exists []; cbn; done|].
    destruct (is_directory _ output_path); [exists []; cbn; done|].
    exists [EvOpenWrite output_path].
    destruct complete; cbn; rewrite <- app_assoc; split; try done; by repeat constructor.
  - exists []. by case_decide.
Qed.

Lemma apply_transforms_trace (T : gmap string Transformer)
    (transforms : list (gmap string string)) : forall (p : Path) (w : World),
  trace (snd (apply_transforms T p transforms w)) = trace w.
Proof.
  induction transforms as [|transform rest IH]; intros p w; [done|].
  cbn [apply_transforms].
  destruct (transform !! "type" ≫= _) as [transformer|]; [|done].
  unfold bind, run_transformer.
  destruct (transformer p (fs w)) as [[q|e] files]; [|done].
  by rewrite IH.
Qed.

Lemma push_file_to_registry_trace (env : Env) (file_path : Path) (destination : string)
    (tags : list string) (owner user password : string) (mime : option string)
    (w : World) :
  trace (snd (push_file_to_registry env file_path destination tags owner user password
                mime w))
  = trace w ++ [EvPopen (oras_push_cmd
                           (PyStr.replace OWNER_TOKEN owner destination +:+ ":"
                            +:+ PyStr.join "," tags) file_path mime)].
Proof.
  unfold push_file_to_registry, bind, run_process.
  by destruct (popen env w _).
Qed.

Lemma mirror_file_try_trace (env : Env) (T : gmap string Transformer)
    (source : string) (download_path : Path) (destination : string) (tags : list string)
    (transforms : list (gmap string string)) (owner user password : string)
    (mime : option string) (w : World) :
  exists delta,
    trace (snd (mirror_file_try env T source download_path destination tags transforms
                  owner user password mime w))
    = trace w ++ EvHttpGet source :: delta
    /\ Forall (file_try_event download_path
                 (PyStr.replace OWNER_TOKEN owner destination +:+ ":"
                  +:+ PyStr.join "," tags) mime) delta.
Proof.
  unfold mirror_file_try, bind.
  destruct (download_file_trace env source download_path w) as (d1 & Hd & Hall).
  destruct (download_file env source download_path w) as [[[]|e] w1]; cbn [snd] in Hd.
  - set (t := match transforms with [] => _ | _ => _ end).
    assert (Ht : trace (snd (t w1)) = trace w1).
    { subst t. destruct transforms; [done|]. apply apply_transforms_trace. }
    destruct (t w1) as [[p|e] w2]; cbn [snd] in Ht.
    + pose proof (push_file_to_registry_trace env p destination tags owner user
                    password mime w2) as Hp.
      destruct (push_file_to_registry _ _ _ _ _ _ _ _ w2) as [b w3].
      unfold ret. cbn [snd] in *.
      exists (d1 ++ [EvPopen (oras_push_cmd
                   (PyStr.replace OWNER_TOKEN owner destination +:+ ":"
                    +:+ PyStr.join "," tags) p mime)]).
      split.
      * rewrite Hp, Ht, Hd, <- app_assoc. done.
      * apply Forall_app. split.
        -- eapply Forall_impl; [exact Hall|]. intros ? ->. by left.
        -- apply Forall_singleton. right. by exists p.
    + exists d1. unfold ret. cbn [snd]. split; [congruence|].
      eapply Forall_impl; [exact Hall|]. intros ? ->. by left.
  - exists d1. unfold ret. cbn [snd]. split; [done|].
    eapply Forall_impl; [exact Hall|]. intros ? ->. by left.
Qed.

Lemma file_op_trace (env : Env) (T : gmap string Transformer)
    (source : string) (download_path : Path) (destination : string) (tags : list string)
    (transforms : list (gmap string string)) (owner user password : string)
    (mime : option string) (w : World) :
  exists delta,
    trace (snd (file_op env T source download_path destination tags transforms
                  owner user password mime w))
    = trace w ++ EvHttpGet source :: delta
    /\ Forall (file_try_event download_path
                 (PyStr.replace OWNER_TOKEN owner destination +:+ ":"
                  +:+ PyStr.join "," tags) mime) delta.
Proof.
  destruct (mirror_file_try_trace env T source download_path destination tags transforms
              owner user password mime w) as (delta & H & Hall).
  exists delta. split; [|done].
  unfold file_op, bind.
  by destruct (mirror_file_try _ _ _ _ _ _ _ _ _ _ _ w) as [[b|e] w1].
Qed.

(** ** Counting attempts and sleeps *)

Section RetryCounts.

Variable op : M bool.
Variable retry_attempts : Z.
Variable retry_delay : N.
Variable f : Event -> bool.
Variable c : nat.
Hypothesis op_emits : forall w,
  count f (trace (snd (op w))) = (count f (trace w) + c)%nat.

Local Abbreviation loop := (retry_loop op retry_attempts retry_delay).
Local Abbreviation s := (if f (EvSleep retry_delay) then 1%nat else 0%nat).

Lemma retry_success_count (k : nat) (w : World) :
  first_success op retry_attempts retry_delay k w ->
  Z.of_nat k <= retry_attempts ->
  fst (loop (py_range 1 (retry_attempts + 1)) w) = true
  /\ count f (trace (snd (loop (py_range 1 (retry_attempts + 1)) w)))
     = (count f (trace w) + k * c + (k - 1) * s)%nat.
Proof.
  intros (Hk & Hfail & Hok) Hle. unfold attempt_succeeds in *.
  rewrite (retry_loop_success op retry_attempts retry_delay (k - 1)).
  - cbn [fst snd]. split; [done|].
    rewrite op_emits, (attempt_world_count op retry_attempts retry_delay f c op_emits).
    destruct (f (EvSleep retry_delay)); nia.
  - lia.
  - intros j Hj. specialize (Hfail (S j) ltac:(lia)).
    by replace (S j - 1)%nat with j in Hfail by lia.
  - done.
Qed.

Lemma retry_failure_count (w : World) :
  1 <= retry_attempts ->
  all_fail op retry_attempts retry_delay w ->
  fst (loop (py_range 1 (retry_attempts + 1)) w) = false
  /\ count f (trace (snd (loop (py_range 1 (retry_attempts + 1)) w)))
     = (count f (trace w) + Z.to_nat retry_attempts * c
        + (Z.to_nat retry_attempts - 1) * s)%nat.
Proof.
  intros Hn Hfail. unfold all_fail, attempt_succeeds in *.
  rewrite (retry_loop_failure op retry_attempts retry_delay (Z.to_nat retry_attempts)).
  - cbn [fst snd]. split; [done|].
    rewrite (attempt_world_count op retry_attempts retry_delay f c op_emits).
    destruct (f (EvSleep retry_delay)); nia.
  - lia.
  - intros j Hj. specialize (Hfail (S j) ltac:(lia) ltac:(lia)).
    by replace (S j - 1)%nat with j in Hfail by lia.
Qed.

End RetryCounts.

Lemma image_op_count (env : Env) (cmd : list string) (f : Event -> bool) (w : World) :
  count f (trace (snd (image_op env cmd w)))
  = (count f (trace w) + (if f (EvPopen cmd) then 1 else 0))%nat.
Proof.
  rewrite image_op_trace, count_app, count_cons, count_nil. lia.
Qed.

Lemma file_try_event_quiet (f : Event -> bool) (download_path : Path)
    (dest_full : string) (mime : option string) (delta : list Event) :
  quiet f ->
  Forall (file_try_event download_path dest_full mime) delta ->
  count f delta = O.
Proof.
  intros (Ho & Hp & _) Hall. apply count_none.
  eapply Forall_impl; [exact Hall|].
  intros e [-> | [p ->]]; auto.
Qed.

Lemma file_op_count (env : Env) (T : gmap string Transformer)
    (source : string) (download_path : Path) (destination : string) (tags : list string)
    (transforms : list (gmap string string)) (owner user password : string)
    (mime : option string) (f : Event -> bool) (w : World) :
  quiet f ->
  count f (trace (snd (file_op env T source download_path destination tags transforms
                         owner user password mime w)))
  = (count f (trace w) + (if f (EvHttpGet source) then 1 else 0))%nat.
Proof.
  intros Hq.
  destruct (file_op_trace env T source download_path destination tags transforms owner
              user password mime w) as (delta & -> & Hall).
  rewrite count_app, count_cons, (file_try_event_quiet f _ _ _ _ Hq Hall). lia.
Qed.

Lemma quiet_is_http_get : quiet is_http_get.
Proof. by repeat split. Qed.

Lemma quiet_is_sleep : quiet is_sleep.
Proof. by repeat split. Qed.

Lemma quiet_is_sleep_of (d : N) : quiet (is_sleep_of d).
Proof. by repeat split. Qed.

(** [mirror_file] is the retry loop between the creation and the removal
    of the temporary directory. *)
Lemma mirror_file_unfold (env : Env) (T : gmap string Transformer)
    (source destination : string) (tags : list string)
    (transforms : list (gmap string string)) (owner user password : string)
    (mime : option string) (retry_attempts : Z) (retry_delay : N) (w : World) :
  let tmpdir := mkdtemp env w in
  let r := retry_loop
             (file_attempt env T source destination tags transforms owner user password
                mime tmpdir)
             retry_attempts retry_delay (py_range 1 (retry_attempts + 1))
             (log (EvMkdtemp tmpdir) w) in
  mirror_file env T source destination tags transforms owner user password mime
    retry_attempts retry_delay w
  = (fst r, snd (cleanup_tmpdir tmpdir (snd r))).
Proof.
  cbn zeta. unfold mirror_file, bind, make_tmpdir, file_attempt.
  rewrite mirror_file_loop_retry.
  by destruct (retry_loop _ _ _ _ _) as [r w1].
Qed.

Lemma cleanup_tmpdir_count_gen (f : Event -> bool) (tmpdir : string) (w : World) :
  f (EvRmtree tmpdir) = false ->
  count f (trace (snd (cleanup_tmpdir tmpdir w))) = count f (trace w).
Proof.
  intros Hr. unfold cleanup_tmpdir. cbn [snd].
  rewrite count_log. cbn [trace]. rewrite Hr. lia.
Qed.

Lemma cleanup_tmpdir_count (f : Event -> bool) (tmpdir : string) (w : World) :
  quiet f ->
  count f (trace (snd (cleanup_tmpdir tmpdir w))) = count f (trace w).
Proof. intros (_ & _ & _ & Hr). by apply cleanup_tmpdir_count_gen. Qed.

(** ** The retry loops of [mirror_image] and [mirror_file] *)



(** ** No attempts at all *)

Lemma mirror_tags_zero (env : Env) (owner user password : string) (retry_delay : N)
    (source destination : string) (tags : list string) : forall (failed : Z) (w : World),
  mirror_tags env owner user password 0 retry_delay source destination tags failed w
  = (failed + Z.of_nat (length tags), w).
Proof.
  induction tags as [|tag rest IH]; intros failed w.
  - cbn. unfold ret. f_equal. lia.
  - cbn [mirror_tags]. unfold bind.
    change (mirror_image env source destination tag owner user password 0 retry_delay w)
      with (false, w).
    cbv iota beta. rewrite IH. cbn [length]. f_equal. lia.
Qed.

Lemma process_files_zero (env : Env) (T : gmap string Transformer)
    (owner user password : string) (retry_delay : N) (files : list FileMirror) :
  forall (failed : Z) (w : World),
  fst (process_files env T owner user password 0 retry_delay files failed w)
  = failed + Z.of_nat (length files).
Proof.
  induction files as [|file rest IH]; intros failed w.
  - cbn. lia.
  - cbn [process_files]. unfold bind.
    rewrite mirror_file_unfold. cbn zeta. rewrite (py_range_nil 1 (0 + 1)) by lia.
    cbn [retry_loop]. unfold ret at 1 2. cbn [fst snd].
    rewrite IH. cbn [length]. lia.
Qed.

(** C10.  With [retry_attempts = 0] both [mirror_image] and [mirror_file]
    make no attempt and return [False]: [mirror_image] leaves the world as
    it is, [mirror_file] only creates and removes its temporary directory
    (no download, no child process), and the coordinator counts every tag
    and every file job as failed. *)
Theorem zero_retry_attempts_fail_at_once :
  forall (env : Env) (T : gmap string Transformer)
    (source destination tag owner user password : string) (tags : list string)
    (transforms : list (gmap string string)) (mime : option string)
    (retry_delay : N) (files : list FileMirror) (failed : Z) (w : World),
  mirror_image env source destination tag owner user password 0 retry_delay w
  = (false, w)
  /\ (let rf := mirror_file env T source destination tags transforms owner user
                  password mime 0 retry_delay w in
      fst rf = false
      /\ trace (snd rf)
         = trace w ++ [EvMkdtemp (mkdtemp env w); EvRmtree (mkdtemp env w)])
  /\ mirror_tags env owner user password 0 retry_delay source destination tags failed w
     = (failed + Z.of_nat (length tags), w)
  /\ fst (process_files env T owner user password 0 retry_delay files failed w)
     = failed + Z.of_nat (length files).
Proof.
  intros. split; [reflexivity|]. split; [|split].
  - cbn zeta. rewrite mirror_file_unfold. cbn zeta.
    rewrite (py_range_nil 1 (0 + 1)) by lia.
    cbn [retry_loop]. unfold ret. cbn [fst snd].
    split; [done|]. unfold cleanup_tmpdir, log. cbn [snd trace].
    by rewrite <- app_assoc.
  - apply mirror_tags_zero.
  - apply process_files_zero.
Qed.

(** ** The transform pipeline *)

Lemma apply_transforms_step (T : gmap string Transformer) (p : Path)
    (transform : gmap string string) (rest : list (gmap string string)) (w : World) :
  apply_transforms T p (transform :: rest) w
  = match resolve_step T transform with
    | None => (Raise (ValueError "Unknown transformer type"), w)
    | Some transformer =>
        match run_transformer transformer p w with
        | (Ok current_path, w1) => apply_transforms T current_path rest w1
        | (Raise e, w1) => (Raise e, w1)
        end
    end.
Proof.
  cbn [apply_transforms]. unfold resolve_step.
  destruct (transform !! "type" ≫= _) as [transformer|]; [|done].
  unfold bind. by destruct (run_transformer transformer p w) as [[q|e] w1].
Qed.

(** Folding the steps over a computation [before] is: run [before], then
    the loop of [apply_transforms] on the path it gives. *)
Lemma fold_transform_steps (T : gmap string Transformer)
    (transforms : list (gmap string string)) :
  forall (before : M (result Path)) (w : World),
  fold_left (transform_step T) transforms before w
  = match before w with
    | (Ok p, w1) => apply_transforms T p transforms w1
    | (Raise e, w1) => (Raise e, w1)
    end.
Proof.
  induction transforms as [|transform rest IH]; intros before w.
  - cbn. by destruct (before w) as [[p|e] w1].
  - cbn [fold_left]. rewrite IH. unfold transform_step at 1, bind.
    destruct (before w) as [[p|e] w1]; [|done].
    rewrite apply_transforms_step.
    destruct (resolve_step T transform) as [transformer|]; [|done].
    by destruct (run_transformer transformer p w1) as [[q|e] w2].
Qed.

(** C9.  [apply_transforms] on the empty list of steps returns the input
    path and touches nothing; on any list it is the left fold of the steps,
    in the order in which they are declared, over the initial path: each
    step looks its transformer up, runs it on the output path of the step
    before it, and an unknown type or a raising transformer ends the
    pipeline with that exception. *)
Theorem apply_transforms_is_left_fold :
  forall (T : gmap string Transformer) (p : Path)
    (transforms : list (gmap string string)) (w : World),
  apply_transforms T p [] w = (Ok p, w)
  /\ apply_transforms T p transforms w = apply_transforms_fold T p transforms w
  /\ (forall transform rest,
        apply_transforms_fold T p (transforms ++ transform :: rest) w
        = fold_left (transform_step T) rest
            (transform_step T (apply_transforms_fold T p transforms) transform) w).
Proof.
  intros T p transforms w. split; [reflexivity|]. split.
  - unfold apply_transforms_fold. by rewrite fold_transform_steps.
  - intros transform rest. unfold apply_transforms_fold.
    by rewrite fold_left_app.
Qed.

(** ** Unknown transform types *)

Lemma apply_transforms_unregistered (T : gmap string Transformer)
    (transforms : list (gmap string string)) :
  Exists (unregistered T) transforms ->
  forall (p : Path) (w : World),
    is_ok (fst (apply_transforms T p transforms w)) = false.
Proof.
  induction 1 as [transform rest Hun|transform rest _ IH]; intros p w.
  - rewrite apply_transforms_step. unfold unregistered in Hun. by rewrite Hun.
  - rewrite apply_transforms_step.
    destruct (resolve_step T transform) as [transformer|]; [|done].
    destruct (run_transformer transformer p w) as [[q|e] w1]; [apply IH|done].
Qed.

(** With an unregistered step in the list, a pass through the [try] block
    makes its request, may write the download, and ends in the [except]
    clause: it never gets to the push. *)
Lemma mirror_file_try_unregistered (env : Env) (T : gmap string Transformer)
    (source : string) (download_path : Path) (destination : string) (tags : list string)
    (transforms : list (gmap string string)) (owner user password : string)
    (mime : option string) (w : World) :
  Exists (unregistered T) transforms ->
  let r := mirror_file_try env T source download_path destination tags transforms
             owner user password mime w in
  is_ok (fst r) = false
  /\ exists delta, trace (snd r) = trace w ++ EvHttpGet source :: delta
                   /\ Forall (fun e => e = EvOpenWrite download_path) delta.
Proof.
  intros Hun. cbn zeta. unfold mirror_file_try, bind.
  destruct (download_file_trace env source download_path w) as (d1 & Hd & Hall).
  destruct (download_file env source download_path w) as [[[]|e] w1]; cbn [snd] in Hd.
  - destruct transforms as [|transform rest]; [by apply Exists_nil in Hun|].
    pose proof (apply_transforms_unregistered T _ Hun download_path w1) as Hfail.
    pose proof (apply_transforms_trace T (transform :: rest) download_path w1) as Ht.
    destruct (apply_transforms T download_path (transform :: rest) w1) as [[q|e] w2];
      [done|].
    unfold ret. cbn [fst snd] in *. split; [done|].
    exists d1. split; [congruence|done].
  - unfold ret. cbn [fst snd]. split; [done|]. by exists d1.
Qed.

Lemma file_op_unregistered (env : Env) (T : gmap string Transformer)
    (source : string) (download_path : Path) (destination : string) (tags : list string)
    (transforms : list (gmap string string)) (owner user password : string)
    (mime : option string) (w : World) :
  Exists (unregistered T) transforms ->
  let r := file_op env T source download_path destination tags transforms
             owner user password mime w in
  fst r = false
  /\ forall f, (forall p, f (EvOpenWrite p) = false) ->
       count f (trace (snd r))
       = (count f (trace w) + (if f (EvHttpGet source) then 1 else 0))%nat.
Proof.
  intros Hun. cbn zeta.
  destruct (mirror_file_try_unregistered env T source download_path destination tags
              transforms owner user password mime w Hun) as (Hfail & delta & Ht & Hall).
  unfold file_op, bind.
  destruct (mirror_file_try _ _ _ _ _ _ _ _ _ _ _ w) as [[b|e] w1]; [done|].
  unfold ret. cbn [fst snd] in *. split; [done|].
  intros f Hf. rewrite Ht, count_app, count_cons.
  rewrite (count_none f delta); [lia|].
  eapply Forall_impl; [exact Hall|]. by intros ? ->.
Qed.

(** A loop whose operation never succeeds runs all its attempts. *)
Lemma retry_loop_never (op : M bool) (retry_attempts : Z) (retry_delay : N)
    (f : Event -> bool) (c : nat) (w : World) :
  (forall w1, fst (op w1) = false) ->
  (forall w1, count f (trace (snd (op w1))) = (count f (trace w1) + c)%nat) ->
  f (EvSleep retry_delay) = false ->
  let r := retry_loop op retry_attempts retry_delay
             (py_range 1 (retry_attempts + 1)) w in
  fst r = false
  /\ count f (trace (snd r)) = (count f (trace w) + Z.to_nat retry_attempts * c)%nat.
Proof.
  intros Hnever Hc Hs. cbn zeta.
  rewrite (retry_loop_failure op retry_attempts retry_delay (Z.to_nat retry_attempts));
    [|lia|by intros].
  cbn [fst snd]. split; [done|].
  rewrite (attempt_world_count op retry_attempts retry_delay f c Hc), Hs. lia.
Qed.




(** ** Event classes of computations *)

Lemma emits_ret {A} (P : Event -> Prop) (a : A) : emits P (ret a).
Proof. intros w. exists []. by rewrite app_nil_r. Qed.

Lemma emits_bind {A B} (P : Event -> Prop) (m : M A) (k : A -> M B) :
  emits P m -> (forall a, emits P (k a)) -> emits P (bind m k).
Proof.
  intros Hm Hk w. unfold bind.
  destruct (Hm w) as (d1 & H1 & Hall1).
  destruct (m w) as [a w1]. cbn [snd] in H1.
  destruct (Hk a w1) as (d2 & H2 & Hall2).
  exists (d1 ++ d2). split.
  - by rewrite H2, H1, app_assoc.
  - by apply Forall_app.
Qed.

Lemma emits_mono {A} (P Q : Event -> Prop) (m : M A) :
  (forall e, P e -> Q e) -> emits P m -> emits Q m.
Proof.
  intros HPQ Hm w. destruct (Hm w) as (delta & H & Hall).
  exists delta. split; [done|]. by eapply Forall_impl.
Qed.

Lemma emits_sleep (P : Event -> Prop) (seconds : N) :
  P (EvSleep seconds) -> emits P (sleep seconds).
Proof. intros HP w. exists [EvSleep seconds]. split; [done|]. by apply Forall_singleton. Qed.

Lemma emits_run_process (env : Env) (P : Event -> Prop) (cmd : list string) :
  P (EvPopen cmd) -> emits P (run_process env cmd).
Proof. intros HP w. exists [EvPopen cmd]. split; [done|]. by apply Forall_singleton. Qed.

Lemma emits_retry_loop (P : Event -> Prop) (op : M bool) (retry_attempts : Z)
    (retry_delay : N) (attempts : list Z) :
  emits P op -> P (EvSleep retry_delay) ->
  emits P (retry_loop op retry_attempts retry_delay attempts).
Proof.
  intros Hop Hs. induction attempts as [|attempt rest IH]; [apply emits_ret|].
  cbn [retry_loop]. apply emits_bind; [done|]. intros [|]; [apply emits_ret|].
  apply emits_bind; [|done]. unfold pause.
  case_decide; [by apply emits_sleep|apply emits_ret].
Qed.

Lemma emits_file_attempt (env : Env) (T : gmap string Transformer)
    (source destination : string) (tags : list string)
    (transforms : list (gmap string string)) (owner user password : string)
    (mime : option string) (tmpdir : string) (retry_delay : N) :
  emits (file_loop_event source tmpdir
           (PyStr.replace OWNER_TOKEN owner destination +:+ ":" +:+ PyStr.join "," tags)
           mime retry_delay)
    (file_attempt env T source destination tags transforms owner user password mime
       tmpdir).
Proof.
  intros w.
  destruct (file_op_trace env T source (path_join tmpdir (PyStr.last_segment source))
              destination tags transforms owner user password mime w)
    as (delta & H & Hall).
  exists (EvHttpGet source :: delta). split; [done|].
  constructor; [by left|].
  eapply Forall_impl; [exact Hall|]. intros e He. right. by left.
Qed.

(** ** The temporary directory of a file job *)

Lemma mirror_file_trace (env : Env) (T : gmap string Transformer)
    (source destination : string) (tags : list string)
    (transforms : list (gmap string string)) (owner user password : string)
    (mime : option string) (retry_attempts : Z) (retry_delay : N) (w : World) :
  exists delta,
    trace (snd (mirror_file env T source destination tags transforms owner user password
                  mime retry_attempts retry_delay w))
    = trace w ++ EvMkdtemp (mkdtemp env w) :: delta ++ [EvRmtree (mkdtemp env w)]
    /\ Forall (file_loop_event source (mkdtemp env w)
                 (PyStr.replace OWNER_TOKEN owner destination +:+ ":"
                  +:+ PyStr.join "," tags) mime retry_delay) delta.
Proof.
  rewrite mirror_file_unfold. cbn zeta. cbn [snd].
  set (tmpdir := mkdtemp env w).
  set (op := file_attempt _ _ _ _ _ _ _ _ _ _ _).
  destruct (emits_retry_loop _ op retry_attempts retry_delay
              (py_range 1 (retry_attempts + 1))
              (emits_file_attempt env T source destination tags transforms owner user
                 password mime tmpdir retry_delay)
              ltac:(right; by right) (log (EvMkdtemp tmpdir) w))
    as (delta & H & Hall).
  exists delta. split; [|done].
  unfold cleanup_tmpdir. cbn [snd log trace]. rewrite H. cbn [log trace].
  by rewrite <- !app_assoc.
Qed.

(** C7.  Whatever happens to a file job (success, exhausted retries,
    exceptions in download, transform or push, which the loop catches),
    its run is: create the temporary directory, then the attempts, then
    remove that same directory.  Between creation and removal there are
    only requests, writes of the download into that directory, pushes and
    sleeps: all attempts share the one directory, none is created or
    removed in between.  After the run no file is left under it. *)
Theorem tmpdir_created_shared_removed :
  forall (env : Env) (T : gmap string Transformer) (source destination : string)
    (tags : list string) (transforms : list (gmap string string))
    (owner user password : string) (mime : option string)
    (retry_attempts : Z) (retry_delay : N) (w : World),
  let tmpdir := mkdtemp env w in
  let rf := mirror_file env T source destination tags transforms owner user password
              mime retry_attempts retry_delay w in
  (exists delta,
     trace (snd rf) = trace w ++ EvMkdtemp tmpdir :: delta ++ [EvRmtree tmpdir]
     /\ Forall (file_loop_event source tmpdir
                  (PyStr.replace OWNER_TOKEN owner destination +:+ ":"
                   +:+ PyStr.join "," tags) mime retry_delay) delta)
  /\ (forall p, under tmpdir p = true -> fs (snd rf) !! p = None).
Proof.
  intros. subst rf tmpdir. split; [apply mirror_file_trace|].
  rewrite mirror_file_unfold. cbn zeta. cbn [snd].
  intros p Hp. unfold cleanup_tmpdir. cbn [snd log fs].
  apply map_lookup_filter_None. right. intros data _. cbn. by rewrite Hp.
Qed.

(** ** Substitution of the owner in destinations *)

Module PyStrFacts.
Import PyStr.

Lemma append_nil (t : string) : "" +:+ t = t.
Proof. reflexivity. Qed.

Lemma append_cons (c : ascii) (s t : string) : String c s +:+ t = String c (s +:+ t).
Proof. reflexivity. Qed.

Lemma startswith_app (old post : string) : startswith old (old +:+ post) = true.
Proof.
  induction old as [|c old IH]; [done|].
  rewrite append_cons. cbn [startswith]. by destruct (decide (c = c)).
Qed.

(** Once an occurrence is matched, the scan resumes behind it. *)
Lemma replace_go_skip (old new x post : string) :
  replace_go old new (String.length x) (x +:+ post) = replace old new post.
Proof.
  induction x as [|c x IH].
  - rewrite append_nil. unfold replace. by destruct post.
  - rewrite append_cons. exact IH.
Qed.

(** The leftmost occurrence is replaced, what is in front of it is
    kept, what follows it is treated the same way. *)
Lemma replace_first (old new post : string) :
  old <> "" ->
  forall pre : string,
  (forall i, (i < String.length pre)%nat ->
     startswith old (drop i (pre +:+ old +:+ post)) = false) ->
  replace old new (pre +:+ old +:+ post) = pre +:+ new +:+ replace old new post.
Proof.
  intros Hold. induction pre as [|c pre IH]; intros Hfirst.
  - rewrite !append_nil. pose proof (startswith_app old post) as Hs.
    destruct old as [|c old]; [done|]. rewrite append_cons in *.
    unfold replace at 1. cbn [replace_go]. rewrite Hs.
    replace (String.length (String c old) - 1)%nat with (String.length old)
      by (cbn [String.length]; lia).
    by rewrite replace_go_skip.
  - rewrite !append_cons. unfold replace at 1. cbn [replace_go].
    pose proof (Hfirst O ltac:(cbn; lia)) as H0.
    rewrite append_cons in H0. cbn [drop] in H0.
    rewrite H0. f_equal. apply IH.
    intros i Hi. specialize (Hfirst (S i) ltac:(cbn; lia)).
    by rewrite append_cons in Hfirst.
Qed.

(** A string without occurrence is left as it is. *)
Lemma replace_none (old new s : string) :
  (forall i, startswith old (drop i s) = false) -> replace old new s = s.
Proof.
  induction s as [|c s IH]; intros Hnone; [done|].
  unfold replace. cbn [replace_go].
  pose proof (Hnone O) as H0. cbn [drop] in H0. rewrite H0. f_equal.
  apply IH. intros i. apply (Hnone (S i)).
Qed.

End PyStrFacts.

Lemma emits_mirror_image (env : Env) (source destination tag owner user password : string)
    (retry_attempts : Z) (retry_delay : N) :
  emits (fun e => e = EvPopen (skopeo_cmd user password (source +:+ ":" +:+ tag)
                                 (PyStr.replace OWNER_TOKEN owner destination
                                  +:+ ":" +:+ tag))
                  \/ e = EvSleep retry_delay)
    (mirror_image env source destination tag owner user password retry_attempts
       retry_delay).
Proof.
  intros w. unfold mirror_image. rewrite mirror_image_loop_retry.
  apply emits_retry_loop; [|by right].
  intros w1. eexists. split; [apply image_op_trace|].
  apply Forall_singleton. by left.
Qed.

Lemma emits_mirror_tags (env : Env) (owner user password : string)
    (retry_attempts : Z) (retry_delay : N) (source destination : string)
    (tags : list string) : forall failed : Z,
  emits (image_job_event source (PyStr.replace OWNER_TOKEN owner destination)
           user password tags retry_delay)
    (mirror_tags env owner user password retry_attempts retry_delay source destination
       tags failed).
Proof.
  induction tags as [|tag rest IH]; intros failed; [apply emits_ret|].
  cbn [mirror_tags]. apply emits_bind.
  - eapply emits_mono; [|apply emits_mirror_image].
    intros e [-> | ->]; [left|by right]. exists tag. split; [|done]. by left.
  - intros ok. eapply emits_mono; [|apply IH].
    intros e [(t & Ht & ->) | ->]; [left|by right]. exists t. split; [|done]. by right.
Qed.

Lemma emits_grows {A} (P : Event -> Prop) (m : M A) (e : Event) (w : World) :
  emits P m -> e ∈ trace w -> e ∈ trace (snd (m w)).
Proof.
  intros Hm He. destruct (Hm w) as (delta & -> & _).
  apply elem_of_app. by left.
Qed.

(** With at least one attempt allowed, the copy tool is run for the tag. *)
Lemma mirror_image_runs_copy (env : Env)
    (source destination tag owner user password : string)
    (retry_attempts : Z) (retry_delay : N) (w : World) :
  1 <= retry_attempts ->
  EvPopen (skopeo_cmd user password (source +:+ ":" +:+ tag)
             (PyStr.replace OWNER_TOKEN owner destination +:+ ":" +:+ tag))
  ∈ trace (snd (mirror_image env source destination tag owner user password
                  retry_attempts retry_delay w)).
Proof.
  intros Hn. unfold mirror_image. rewrite mirror_image_loop_retry.
  rewrite py_range_cons by lia. rewrite retry_loop_step.
  set (cmd := skopeo_cmd _ _ _ _).
  assert (H1 : EvPopen cmd ∈ trace (snd (image_op env cmd w))).
  { rewrite image_op_trace. apply elem_of_app. right. by left. }
  destruct (fst (image_op env cmd w)); [done|].
  eapply (emits_grows (fun _ => True)).
  - apply emits_retry_loop; [|done]. intros w1. eexists. split; [apply image_op_trace|].
    by apply Forall_singleton.
  - unfold pause. case_decide; cbn [sleep ret snd log trace]; [|done].
    apply elem_of_app. by left.
Qed.

Lemma mirror_tags_runs_every_tag (env : Env) (owner user password : string)
    (retry_attempts : Z) (retry_delay : N) (source destination : string)
    (tags : list string) (tag : string) : forall (failed : Z) (w : World),
  1 <= retry_attempts -> tag ∈ tags ->
  EvPopen (skopeo_cmd user password (source +:+ ":" +:+ tag)
             (PyStr.replace OWNER_TOKEN owner destination +:+ ":" +:+ tag))
  ∈ trace (snd (mirror_tags env owner user password retry_attempts retry_delay source
                  destination tags failed w)).
Proof.
  intros failed w Hn. revert failed w.
  induction tags as [|t rest IH]; intros failed w Hin; [by apply elem_of_nil in Hin|].
  cbn [mirror_tags]. unfold bind.
  pose proof (mirror_image_runs_copy env source destination t owner user password
                retry_attempts retry_delay w Hn) as H1.
  destruct (mirror_image _ _ _ _ _ _ _ _ _ w) as [ok w1]. cbn [snd] in H1.
  apply elem_of_cons in Hin as [-> | Hin].
  - eapply emits_grows; [apply emits_mirror_tags|done].
  - by apply IH.
Qed.

(** With at least one attempt allowed, the first thing [mirror_image]
    does is start the copy to the resolved destination; whatever follows
    is that same command again or the pause between two attempts. *)
Lemma mirror_image_starts_with_copy (env : Env)
    (source destination tag owner user password : string)
    (retry_attempts : Z) (retry_delay : N) (w : World) :
  1 <= retry_attempts ->
  let cmd := skopeo_cmd user password (source +:+ ":" +:+ tag)
               (PyStr.replace OWNER_TOKEN owner destination +:+ ":" +:+ tag) in
  exists delta,
    trace (snd (mirror_image env source destination tag owner user password
                  retry_attempts retry_delay w))
    = trace w ++ EvPopen cmd :: delta
    /\ Forall (fun e => e = EvPopen cmd \/ e = EvSleep retry_delay) delta.
Proof.
  intros Hn cmd. unfold mirror_image. rewrite mirror_image_loop_retry. fold cmd.
  rewrite py_range_cons by lia. rewrite retry_loop_step.
  destruct (fst (image_op env cmd w)).
  { exists []. split; [apply image_op_trace|done]. }
  set (P := fun e => e = EvPopen cmd \/ e = EvSleep retry_delay).
  assert (Hloop : emits P (retry_loop (image_op env cmd) retry_attempts retry_delay
                             (py_range (1 + 1) (retry_attempts + 1)))).
  { apply emits_retry_loop; [|by right].
    intros w1. eexists. split; [apply image_op_trace|].
    apply Forall_singleton. by left. }
  destruct (Hloop (snd (pause retry_attempts retry_delay 1 (snd (image_op env cmd w)))))
    as (delta & -> & Hdelta).
  unfold pause. case_decide; cbn [sleep ret snd log trace].
  - exists (EvSleep retry_delay :: delta). split.
    + rewrite image_op_trace. by rewrite <- !app_assoc.
    + apply Forall_cons. split; [by right|done].
  - exists delta. split; [|done].
    rewrite image_op_trace. by rewrite <- !app_assoc.
Qed.



(** ** Suffixes of paths *)

Module PathFacts.
Import PyStr PyStrFacts.

Lemma append_empty_r (s : string) : s +:+ "" = s.
Proof. induction s as [|c s IH]; [done|]. by rewrite append_cons, IH. Qed.

Lemma length_drop (i : nat) : forall s : string,
  String.length (drop i s) = (String.length s - i)%nat.
Proof. induction i as [|i IH]; intros [|c s]; cbn; auto with lia. Qed.

Lemma length_take (i : nat) : forall s : string,
  (i <= String.length s)%nat -> String.length (take i s) = i.
Proof.
  induction i as [|i IH]; intros [|c s] Hi; cbn in *; auto with lia.
Qed.

Lemma take_drop (i : nat) : forall s : string, take i s +:+ drop i s = s.
Proof.
  induction i as [|i IH]; intros [|c s]; cbn [take drop]; try done.
  by rewrite append_cons, IH.
Qed.

(** A non-empty suffix starts at a dot that is neither the first nor
    the last character of the name. *)
Lemma suffix_nonempty (p : Path) :
  suffix p <> "" ->
  exists i, (0 < i < String.length (name p) - 1)%nat
            /\ suffix p = drop i (name p).
Proof.
  unfold suffix. destruct (rfind_dot (name p)) as [i|]; [|done].
  case_decide; [|done]. intros _. by exists i.
Qed.

Lemma with_suffix_empty (p : Path) :
  with_suffix p ""
  = if decide (name p = "") then Raise (ValueError "has an empty name")
    else if decide (suffix p = "") then Ok p
    else Ok (mkPath (parent p)
               (take (String.length (name p) - String.length (suffix p)) (name p))).
Proof.
  unfold with_suffix.
  rewrite (bool_decide_eq_false_2 ("" ≠ "" ∧ _)) by (by intros [? _]).
  rewrite (bool_decide_eq_false_2 ("" = ".")) by done.
  cbn [orb has_char]. case_decide; [done|]. cbn zeta.
  rewrite !append_empty_r. case_decide; [|done]. by destruct p.
Qed.

(** Cutting a non-empty suffix off gives another path of the same
    directory. *)
Lemma with_suffix_strips (p : Path) :
  suffix p <> "" ->
  exists out, with_suffix p "" = Ok out
              /\ parent out = parent p
              /\ name p = name out +:+ suffix p
              /\ out <> p.
Proof.
  intros Hs. destruct (suffix_nonempty p Hs) as (i & Hi & Hsuf).
  rewrite with_suffix_empty.
  assert (Hname : name p <> "").
  { intros Hn. rewrite Hn in Hi. cbn in Hi. lia. }
  rewrite decide_False by done. rewrite decide_False by done.
  eexists. split; [reflexivity|]. cbn [parent name].
  rewrite Hsuf, length_drop.
  replace (String.length (name p) - (String.length (name p) - i))%nat with i by lia.
  split; [done|]. split; [by rewrite take_drop|].
  intros Heq. apply (f_equal name) in Heq. cbn [name] in Heq.
  apply (f_equal String.length) in Heq. rewrite length_take in Heq; lia.
Qed.

End PathFacts.

(** ** The gunzip transformer *)

Lemma is_directory_file (files : gmap Path bytes) (p : Path) :
  is_Some (files !! p) -> is_directory files p = false.
Proof.
  intros [content Hp]. unfold is_directory.
  by rewrite bool_decide_eq_false_2 by (by rewrite Hp).
Qed.

Lemma is_directory_name (files : gmap Path bytes) (p : Path) :
  name p <> "" -> name p <> "." -> name p <> ".." -> is_directory files p = false.
Proof.
  intros H1 H2 H3. unfold is_directory.
  rewrite !(bool_decide_eq_false_2 (name p = _)) by done.
  apply andb_false_r.
Qed.

(** C8.  For a path whose final component has no suffix, [with_suffix("")]
    is the path itself: [gunzip_transformer] opens for writing the very
    file it is about to read, so what the decoder reads is the file just
    truncated, whatever it contained, and the result lands in the input
    path.  The output path differs from the input path exactly when the
    name has a suffix. *)
Theorem gunzip_without_suffix_overwrites_input :
  forall p : Path,
  name p <> "" ->
  (suffix p = "" ->
     with_suffix p "" = Ok p
     /\ forall (gzip_read : bytes -> GzResult) (files : gmap Path bytes),
          is_Some (files !! p) ->
          gunzip_transformer gzip_read p files
          = match gzip_read [] with
            | GzData data => (Ok p, <[p := data]> files)
            | GzFails handed_out e => (Raise e, <[p := handed_out]> files)
            end)
  /\ (suffix p <> "" -> exists out, with_suffix p "" = Ok out /\ out <> p).
Proof.
  intros p Hname. split.
  - intros Hs.
    assert (Hw : with_suffix p "" = Ok p).
    { rewrite PathFacts.with_suffix_empty.
      rewrite decide_False by done. by rewrite decide_True. }
    split; [done|]. intros gzip_read files [content Hc].
    unfold gunzip_transformer. rewrite Hw, Hc.
    rewrite is_directory_file by done.
    rewrite lookup_insert_eq. cbn [default]. unfold id.
    destruct (gzip_read []); by rewrite insert_insert_eq.
  - intros Hs. destruct (PathFacts.with_suffix_strips p Hs) as (out & H & _ & _ & Hne).
    by exists out.
Qed.

Lemma gunzip_without_suffix_overwrites_input_witness :
  let p := mkPath "/tmp/tmpmirror" "download" in
  let files : gmap Path bytes := {[ p := framed_compress [x01; x02] ]} in
  name p <> "" /\ suffix p = ""
  /\ with_suffix p "" = Ok p
  /\ gunzip_transformer framed_read p files = (Ok p, <[p := []]> files).
Proof.
  intros p files.
  assert (Hname : name p <> "") by done.
  assert (Hs : suffix p = "") by (vm_compute; reflexivity).
  destruct (gunzip_without_suffix_overwrites_input p Hname) as [H _].
  destruct (H Hs) as [Hw Hg].
  split; [done|]. split; [done|]. split; [done|].
  apply (Hg framed_read files). exists (framed_compress [x01; x02]).
  apply lookup_singleton_eq.
Defined.

(** C5.  Where the round trip fails.  [gunzip_transformer] writes to
    [input_path.with_suffix("")] without looking at what that path is.
    For an input whose name has no suffix it is the input itself: with
    every codec whose reader gives no data on an empty file (as
    [gzip.open] does), the call opens the input for writing, decodes the
    emptied file and returns the input path, whose file is then empty.
    The data that was compressed into it is lost, and an input that is not
    gzip at all is not rejected.  For an input named [..gz] the output
    path is the directory of the input: [IsADirectoryError] is raised and
    nothing is decompressed. *)
Theorem gunzip_loses_input_without_suffix :
  forall (gzip_compress : bytes -> bytes) (gzip_read : bytes -> GzResult),
  (forall data, gzip_read (gzip_compress data) = GzData data) ->
  gzip_read [] = GzData [] ->
  forall (p : Path) (files : gmap Path bytes) (content : bytes),
  name p <> "" -> suffix p = "" ->
  files !! p = Some content ->
  gunzip_transformer gzip_read p files = (Ok p, <[p := []]> files)
  /\ (forall data, content = gzip_compress data -> data <> [] ->
        snd (gunzip_transformer gzip_read p files) !! p <> Some data)
  /\ (forall (dir : string) (files' : gmap Path bytes) (data : bytes),
        files' !! mkPath dir "..gz" = Some (gzip_compress data) ->
        files' !! mkPath dir "." = None ->
        gunzip_transformer gzip_read (mkPath dir "..gz") files'
        = (Raise IsADirectoryError, files')).
Proof.
  intros gzip_compress gzip_read Hround Hempty p files content Hname Hs Hp.
  assert (Hw : with_suffix p "" = Ok p).
  { rewrite PathFacts.with_suffix_empty.
    rewrite decide_False by done. by rewrite decide_True. }
  assert (Hg : gunzip_transformer gzip_read p files = (Ok p, <[p := []]> files)).
  { unfold gunzip_transformer. rewrite Hw, Hp.
    rewrite is_directory_file by done.
    rewrite lookup_insert_eq. cbn [default]. unfold id.
    by rewrite Hempty, insert_insert_eq. }
  split; [exact Hg|]. split.
  - intros data _ Hdata. rewrite Hg. cbn [snd]. rewrite lookup_insert_eq. congruence.
  - intros dir files' data Hin Hout.
    assert (Hw' : with_suffix (mkPath dir "..gz") "" = Ok (mkPath dir "."))
      by (vm_compute; reflexivity).
    unfold gunzip_transformer. rewrite Hw', Hin.
    assert (is_directory files' (mkPath dir ".") = true) as ->; [|done].
    unfold is_directory. by rewrite Hout.
Qed.

Lemma gunzip_loses_input_without_suffix_witness :
  let p := mkPath "/tmp/tmpmirror" "download" in
  let files : gmap Path bytes := {[ p := framed_compress [x01; x02] ]} in
  (forall data, framed_read (framed_compress data) = GzData data)
  /\ framed_read [] = GzData []
  /\ name p <> "" /\ suffix p = ""
  /\ files !! p = Some (framed_compress [x01; x02])
  /\ gunzip_transformer framed_read p files = (Ok p, <[p := []]> files)
  /\ snd (gunzip_transformer framed_read p files) !! p <> Some [x01; x02].
Proof.
  intros p files.
  assert (Hround : forall data, framed_read (framed_compress data) = GzData data)
    by reflexivity.
  assert (Hempty : framed_read [] = GzData []) by reflexivity.
  assert (Hname : name p <> "") by done.
  assert (Hs : suffix p = "") by (vm_compute; reflexivity).
  assert (Hp : files !! p = Some (framed_compress [x01; x02]))
    by apply lookup_singleton_eq.
  destruct (gunzip_loses_input_without_suffix framed_compress framed_read Hround
              Hempty p files (framed_compress [x01; x02]) Hname Hs Hp)
    as (Hg & Hlost & _).
  split; [exact Hround|]. split; [exact Hempty|]. split; [exact Hname|].
  split; [exact Hs|]. split; [exact Hp|]. split; [exact Hg|].
  apply Hlost; [reflexivity|discriminate].
Defined.

(** ** The coordinator: failure counter and exit code *)

Lemma count_false_cons (ok : bool) (oks : list bool) :
  count_false (ok :: oks) = (if ok then 0 else 1) + count_false oks.
Proof.
  unfold count_false. rewrite filter_cons. destruct ok; case_decide; try done.
  cbn [length]. lia.
Qed.

Lemma count_false_app (oks oks' : list bool) :
  count_false (oks ++ oks') = count_false oks + count_false oks'.
Proof. unfold count_false. rewrite filter_app, length_app. lia. Qed.

Lemma count_false_nonneg (oks : list bool) : 0 <= count_false oks.
Proof. unfold count_false. lia. Qed.

Lemma count_false_zero (oks : list bool) :
  count_false oks = 0 <-> Forall (fun ok => ok = true) oks.
Proof.
  induction oks as [|ok oks IH].
  - split; [constructor|done].
  - rewrite count_false_cons, Forall_cons. pose proof (count_false_nonneg oks).
    destruct ok; split.
    + intros H0. split; [done|]. apply IH. lia.
    + intros [_ H1]. apply IH in H1. lia.
    + lia.
    + by intros [? _].
Qed.

Lemma failures_count_false (o : Outcomes) :
  failures o = count_false (image_results o ++ file_results o).
Proof. reflexivity. Qed.

Section CoordinatorFacts.

Variable env : Env.
Variable T : gmap string Transformer.
Variables owner user password : string.
Variable retry_attempts : Z.
Variable retry_delay : N.

Local Abbreviation tags_run :=
  (mirror_tags env owner user password retry_attempts retry_delay).
Local Abbreviation tags_out :=
  (tag_outcomes env owner user password retry_attempts retry_delay).
Local Abbreviation docker_run :=
  (process_docker env owner user password retry_attempts retry_delay).
Local Abbreviation docker_out :=
  (docker_outcomes env owner user password retry_attempts retry_delay).
Local Abbreviation files_run :=
  (process_files env T owner user password retry_attempts retry_delay).
Local Abbreviation files_out :=
  (file_outcomes env T owner user password retry_attempts retry_delay).

(** The counter goes up by one for every tag whose copy failed. *)
Lemma mirror_tags_outcomes (source destination : string) (tags : list string) :
  forall (failed : Z) (w : World),
  tags_run source destination tags failed w
  = (failed + count_false (fst (tags_out source destination tags w)),
     snd (tags_out source destination tags w)).
Proof.
  induction tags as [|tag rest IH]; intros failed w.
  - cbn. unfold ret. f_equal. change (count_false []) with 0. lia.
  - cbn [mirror_tags tag_outcomes]. unfold bind.
    destruct (mirror_image _ _ _ _ _ _ _ _ _ w) as [ok w1].
    rewrite IH. destruct (tags_out source destination rest w1) as [oks w2].
    unfold ret. cbn [fst snd]. rewrite count_false_cons. f_equal.
    destruct ok; lia.
Qed.

Lemma tag_outcomes_length (source destination : string) (tags : list string) :
  forall w, length (fst (tags_out source destination tags w)) = length tags.
Proof.
  induction tags as [|tag rest IH]; intros w; [done|].
  cbn [tag_outcomes]. unfold bind.
  destruct (mirror_image _ _ _ _ _ _ _ _ _ w) as [ok w1].
  specialize (IH w1). destruct (tags_out source destination rest w1) as [oks w2].
  unfold ret. cbn [fst length] in *. by rewrite IH.
Qed.

Lemma process_docker_outcomes (mirrors : list DockerMirror) :
  forall (failed : Z) (w : World),
  docker_run mirrors failed w
  = (failed + count_false (fst (docker_out mirrors w)), snd (docker_out mirrors w)).
Proof.
  induction mirrors as [|mirror rest IH]; intros failed w.
  - cbn. unfold ret. f_equal. change (count_false []) with 0. lia.
  - cbn [process_docker docker_outcomes]. unfold bind.
    rewrite mirror_tags_outcomes.
    destruct (tags_out _ _ _ w) as [oks w1]. cbn [fst snd].
    rewrite IH. destruct (docker_out rest w1) as [oks' w2].
    unfold ret. cbn [fst snd]. rewrite count_false_app. f_equal. lia.
Qed.

Lemma docker_outcomes_length (mirrors : list DockerMirror) :
  forall w, length (fst (docker_out mirrors w))
            = length (concat (map d_tags mirrors)).
Proof.
  induction mirrors as [|mirror rest IH]; intros w; [done|].
  cbn [docker_outcomes map concat]. unfold bind.
  pose proof (tag_outcomes_length (d_source mirror) (d_destination mirror)
                (d_tags mirror) w) as Hl.
  destruct (tags_out _ _ _ w) as [oks w1].
  specialize (IH w1). destruct (docker_out rest w1) as [oks' w2].
  unfold ret. cbn [fst] in *. rewrite !length_app. lia.
Qed.

(** The counter goes up by one for every file job that failed. *)
Lemma process_files_outcomes (files : list FileMirror) :
  forall (failed : Z) (w : World),
  files_run files failed w
  = (failed + count_false (fst (files_out files w)), snd (files_out files w)).
Proof.
  induction files as [|file rest IH]; intros failed w.
  - cbn. unfold ret. f_equal. change (count_false []) with 0. lia.
  - cbn [process_files file_outcomes]. unfold bind.
    destruct (mirror_file _ _ _ _ _ _ _ _ _ _ _ _ w) as [ok w1].
    rewrite IH. destruct (files_out rest w1) as [oks w2].
    unfold ret. cbn [fst snd]. rewrite count_false_cons. f_equal.
    destruct ok; lia.
Qed.

Lemma file_outcomes_length (files : list FileMirror) :
  forall w, length (fst (files_out files w)) = length files.
Proof.
  induction files as [|file rest IH]; intros w; [done|].
  cbn [file_outcomes]. unfold bind.
  destruct (mirror_file _ _ _ _ _ _ _ _ _ _ _ _ w) as [ok w1].
  specialize (IH w1). destruct (files_out rest w1) as [oks w2].
  unfold ret. cbn [fst length] in *. by rewrite IH.
Qed.

Lemma finish_exit_code (failed : Z) :
  0 <= failed -> (exit_code (fst (finish failed)) = 0 <-> failed = 0).
Proof.
  intros H. unfold finish. case_decide; cbn; lia.
Qed.

End CoordinatorFacts.

(** C3.  The process exits with code 0 exactly when every image tag and
    every file job of the configuration has been mirrored successfully.
    The counter [failed_mirrors] ends as the number of failed image tags
    plus the number of failed file jobs (one increment per failure); any
    failure (a tag or a file job whose retries are exhausted) and a failed
    registry login (exit status or exception) give a nonzero exit code. *)
Theorem exit_code_zero_iff_all_mirrored :
  forall (env : Env) (T : gmap string Transformer) (owner user password : string)
    (retry_attempts : Z) (retry_delay : N)
    (docker_mirrors : list DockerMirror) (file_mirrors : list FileMirror) (w : World),
  let run := main env T owner user password retry_attempts retry_delay
               docker_mirrors file_mirrors w in
  let out := outcomes env T owner user password retry_attempts retry_delay
               docker_mirrors file_mirrors w in
  snd run = snd out
  /\ snd (fst run) = failures (fst out)
  /\ (exit_code (fst (fst run)) = 0
      <-> all_mirrored docker_mirrors file_mirrors (fst out))
  /\ (failures (fst out) > 0 -> exit_code (fst (fst run)) <> 0)
  /\ (forall r, login_result (fst out) = Some r -> r <> Ok true ->
        exit_code (fst (fst run)) <> 0).
Proof.
  intros env T owner user password retry_attempts retry_delay docker_mirrors
    file_mirrors w. cbn zeta.
  unfold main, outcomes, bind. rewrite process_docker_outcomes.
  pose proof (docker_outcomes_length env owner user password retry_attempts retry_delay
                docker_mirrors w) as Hlen.
  destruct (docker_outcomes _ _ _ _ _ _ docker_mirrors w) as [images w1].
  cbn [fst snd] in *. rewrite Z.add_0_l.
  pose proof (count_false_nonneg images) as Hnn.
  destruct file_mirrors as [|file rest].
  - unfold ret. cbn [fst snd]. rewrite failures_count_false.
    cbn [image_results file_results]. rewrite app_nil_r.
    split; [done|]. split; [by unfold finish; case_decide|].
    split; [|split].
    + rewrite finish_exit_code by done. rewrite count_false_zero.
      unfold all_mirrored. cbn [image_results file_results]. rewrite app_nil_r.
      split; [by intros ?|by intros (_ & _ & ?)].
    + intros Hpos Hexit. apply (proj1 (finish_exit_code _ Hnn)) in Hexit. lia.
    + by intros r ?.
  - destruct (oras_login env user password w1) as [[[|]|e] w2].
    + rewrite process_files_outcomes.
      pose proof (file_outcomes_length env T owner user password retry_attempts
                    retry_delay (file :: rest) w2) as Hlenf.
      destruct (file_outcomes _ _ _ _ _ _ _ (file :: rest) w2) as [files w3].
      unfold ret. cbn [fst snd] in *. rewrite failures_count_false.
      cbn [image_results file_results login_result].
      rewrite count_false_app.
      pose proof (count_false_nonneg files) as Hnnf.
      split; [done|]. split; [by unfold finish; case_decide|].
      split; [|split].
      * rewrite finish_exit_code by lia. rewrite <- count_false_app, count_false_zero.
        unfold all_mirrored. cbn [image_results file_results].
        split; [by intros ?|by intros (_ & _ & ?)].
      * intros Hpos Hexit.
        assert (H0 : 0 <= count_false images + count_false files) by lia.
        apply (proj1 (finish_exit_code _ H0)) in Hexit. lia.
      * intros r [= <-] Hr. done.
    + unfold ret. cbn [fst snd]. rewrite failures_count_false.
      cbn [image_results file_results login_result]. rewrite app_nil_r.
      split; [done|]. split; [done|]. split; [|split]; try done.
      split; [done|]. unfold all_mirrored. cbn [file_results length].
      intros (_ & Hl & _). done.
    + unfold ret. cbn [fst snd]. rewrite failures_count_false.
      cbn [image_results file_results login_result]. rewrite app_nil_r.
      split; [done|]. split; [done|]. split; [|split]; try done.
      split; [done|]. unfold all_mirrored. cbn [file_results length].
      intros (_ & Hl & _). done.
Qed.

(** ** The coordinator: order of the phases *)

Lemma image_event_not_login (e : Event) :
  is_image_job_event e = true -> is_login e = false.
Proof.
  destruct e as [cmd| | | | |]; try done. cbn. unfold runs.
  destruct cmd as [|a [|b rest]]; try done.
  rewrite !andb_true_iff, !bool_decide_eq_true. intros [-> ->]. done.
Qed.

Lemma file_event_not_login (e : Event) :
  is_file_job_event e = true -> is_login e = false.
Proof.
  destruct e as [cmd| | | | |]; try done. cbn. unfold runs.
  destruct cmd as [|a [|b rest]]; try done.
  rewrite !andb_true_iff, !bool_decide_eq_true. intros [-> ->]. done.
Qed.

Lemma file_loop_event_class (source tmpdir dest_full : string) (mime : option string)
    (retry_delay : N) (e : Event) :
  file_loop_event source tmpdir dest_full mime retry_delay e ->
  is_file_job_event e = true.
Proof. by intros [-> | [[-> | [file_path ->]] | ->]]. Qed.

Lemma emits_mirror_file (env : Env) (T : gmap string Transformer)
    (source destination : string) (tags : list string)
    (transforms : list (gmap string string)) (owner user password : string)
    (mime : option string) (retry_attempts : Z) (retry_delay : N) :
  emits (fun e => is_file_job_event e = true)
    (mirror_file env T source destination tags transforms owner user password mime
       retry_attempts retry_delay).
Proof.
  intros w.
  destruct (mirror_file_trace env T source destination tags transforms owner user
              password mime retry_attempts retry_delay w) as (delta & H & Hall).
  eexists. split; [exact H|].
  constructor; [done|]. apply Forall_app. split.
  - eapply Forall_impl; [exact Hall|]. intros e. apply file_loop_event_class.
  - by apply Forall_singleton.
Qed.

Lemma emits_process_files (env : Env) (T : gmap string Transformer)
    (owner user password : string) (retry_attempts : Z) (retry_delay : N)
    (files : list FileMirror) : forall failed : Z,
  emits (fun e => is_file_job_event e = true)
    (process_files env T owner user password retry_attempts retry_delay files failed).
Proof.
  induction files as [|file rest IH]; intros failed; [apply emits_ret|].
  cbn [process_files]. apply emits_bind; [apply emits_mirror_file|].
  intros ok. apply IH.
Qed.

Lemma emits_process_docker (env : Env) (owner user password : string)
    (retry_attempts : Z) (retry_delay : N) (mirrors : list DockerMirror) :
  forall failed : Z,
  emits (fun e => is_image_job_event e = true)
    (process_docker env owner user password retry_attempts retry_delay mirrors failed).
Proof.
  induction mirrors as [|mirror rest IH]; intros failed; [apply emits_ret|].
  cbn [process_docker]. apply emits_bind; [|intros f; apply IH].
  eapply emits_mono; [|apply emits_mirror_tags].
  by intros e [(tag & _ & ->) | ->].
Qed.


Lemma exit_code_zero_iff_all_mirrored_witness :
  let T := TRANSFORMERS0 framed_read in
  let docker := [mkDockerMirror "docker.io/library/alpine"
                   "ghcr.io/{{GITHUB_REPOSITORY_OWNER}}/alpine" ["v1"; "v2"]] in
  let run := main (env_flaky 2 []) T "acme" "user" "token" 2 1 docker [] empty_world in
  let o := fst (outcomes (env_flaky 2 []) T "acme" "user" "token" 2 1 docker []
                  empty_world) in
  image_results o = [false; true]
  /\ failures o > 0
  /\ snd (fst run) = 1
  /\ exit_code (fst (fst run)) <> 0
  /\ ~ all_mirrored docker [] o.
Proof.
  intros T docker run o.
  destruct (exit_code_zero_iff_all_mirrored (env_flaky 2 []) T "acme" "user" "token"
              2 1 docker [] empty_world) as (_ & Hcount & Hiff & Hfail & _).
  assert (Hres : image_results o = [false; true]) by (vm_compute; reflexivity).
  assert (Hpos : failures o > 0) by (vm_compute; reflexivity).
  split; [exact Hres|]. split; [exact Hpos|]. split.
  - fold run o in Hcount. rewrite Hcount. vm_compute. reflexivity.
  - split; [exact (Hfail Hpos)|].
    intros Hall. apply (Hfail Hpos). by apply Hiff.
Defined.


(** ** The scenarios of the design, run on the model *)

(** One image job with the tags [v1] and [v2] and two attempts: the copy
    of [v1] fails twice, the copy of [v2] works at once.  One failure is
    counted and the exit code is 1. *)
Example scenario_one_tag_fails :
  fst (main (env_flaky 2 []) (TRANSFORMERS0 framed_read) "acme" "user" "token" 2 1
         [mkDockerMirror "docker.io/library/alpine"
            "ghcr.io/{{GITHUB_REPOSITORY_OWNER}}/alpine" ["v1"; "v2"]] [] empty_world)
  = (SysExit 1, 1).
Proof. vm_compute. reflexivity. Qed.

(** One file job with the tag [latest], the transform [gunzip] and a
    media type: everything works at the first attempt; the push carries
    [--artifact-type] and its reference ends in [:latest]. *)
Example scenario_file_job_succeeds :
  let run := main (env_ok (framed_compress [x01])) (TRANSFORMERS0 framed_read)
               "acme" "user" "token" 3 1 []
               [mkFileMirror "https://example.org/data.gz"
                  "ghcr.io/{{GITHUB_REPOSITORY_OWNER}}/data" ["latest"]
                  [step_of_type "gunzip"] (Some "application/custom")] empty_world in
  fst run = (Returned, 0)
  /\ trace (snd run)
     = [ EvPopen ["oras"; "login"; "--username"; "user"; "--password"; "token";
                  "ghcr.io"];
         EvMkdtemp "/tmp/tmpmirror";
         EvHttpGet "https://example.org/data.gz";
         EvOpenWrite (mkPath "/tmp/tmpmirror" "data.gz");
         EvPopen ["oras"; "push"; "--disable-path-validation";
                  "ghcr.io/acme/data:latest"; "/tmp/tmpmirror/data";
                  "--artifact-type"; "application/custom"];
         EvRmtree "/tmp/tmpmirror" ].
Proof. vm_compute. split; reflexivity. Qed.

(** Two pure transformers show the order of the pipeline: the second
    step works on the output of the first. *)
Example scenario_pipeline_order :
  let tag_with (s : string) : Transformer :=
        fun p files => (Ok (mkPath (parent p) (name p +:+ s)), files) in
  let T : gmap string Transformer :=
        register_transformer "b" (tag_with ".b")
          (register_transformer "a" (tag_with ".a") ∅) in
  fst (apply_transforms T (mkPath "/tmp" "x") [step_of_type "a"; step_of_type "b"]
         empty_world)
  = Ok (mkPath "/tmp" "x.a.b").
Proof. vm_compute. reflexivity. Qed.

(** * Further properties of the script *)

(** ** The file name of a download *)

Lemma has_char_app (c : ascii) (s t : string) :
  PyStr.has_char c (s +:+ t) = PyStr.has_char c s || PyStr.has_char c t.
Proof.
  induction s as [|b s IH]; [done|].
  rewrite PyStrFacts.append_cons. cbn [PyStr.has_char]. by case_decide.
Qed.

(** X1.  The file name that [mirror_file] takes from the source URL
    ([source.split("/")[-1]]) never contains a slash; it is the whole
    source when the source has no slash, and otherwise the source is some
    prefix, a slash, and that file name. *)
Theorem download_filename_is_last_component :
  forall source : string,
  PyStr.has_char "/" (PyStr.last_segment source) = false
  /\ ((PyStr.has_char "/" source = false /\ PyStr.last_segment source = source)
      \/ (PyStr.has_char "/" source = true
          /\ exists pre, source = pre +:+ "/" +:+ PyStr.last_segment source)).
Proof.
  induction source as [|c s [IHno IH]].
  - split; [done|]. by left.
  - cbn [PyStr.last_segment].
    destruct (PyStr.has_char "/" s) eqn:Hs.
    + split; [done|]. right. split; [cbn; by case_decide|].
      destruct IH as [[? _] | [_ [pre Hpre]]]; [congruence|].
      exists (String c pre). by rewrite PyStrFacts.append_cons, <- Hpre.
    + destruct IH as [[_ Hlast] | [? _]]; [|congruence].
      case_decide as Hc.
      * subst c. split; [done|]. right. split; [cbn; by case_decide|].
        exists "". by rewrite PyStrFacts.append_nil.
      * split; [cbn; rewrite Hs; by case_decide|]. left.
        split; [cbn; rewrite Hs; by case_decide|done].
Qed.

(** ** The transformer registry *)

(** X2.  Registering a transformer under a name makes every step of that
    type resolve to it (replacing what was registered before) and leaves
    the steps of every other type as they were; in the registry of the
    script as loaded, the unregistered steps are exactly those whose type
    is not ["gunzip"], a step without type included. *)
Theorem registry_register_then_resolve :
  forall (T : gmap string Transformer) (name : string) (func : Transformer)
    (gzip_read : bytes -> GzResult) (transform : gmap string string),
  (transform !! "type" = Some name ->
     resolve_step (register_transformer name func T) transform = Some func)
  /\ (transform !! "type" <> Some name ->
      resolve_step (register_transformer name func T) transform
      = resolve_step T transform)
  /\ (unregistered (TRANSFORMERS0 gzip_read) transform
      <-> transform !! "type" <> Some "gunzip").
Proof.
  intros T name func gzip_read transform.
  unfold unregistered, resolve_step, TRANSFORMERS0, register_transformer.
  split; [|split].
  - intros ->. cbn. apply lookup_insert_eq.
  - intros Hne. destruct (transform !! "type") as [t|]; [|done]. cbn.
    apply lookup_insert_ne. congruence.
  - destruct (transform !! "type") as [t|]; cbn; [|done].
    destruct (decide (t = "gunzip")) as [-> | Hne].
    + rewrite lookup_insert_eq. split; [done|]. by intros [].
    + rewrite lookup_insert_ne by done. rewrite lookup_empty.
      split; [congruence|done].
Qed.

(** ** Probing the tools *)

Lemma probe_cmd_flags (tool : string) :
  probe_cmd tool = if decide (tool = "oras") then ["oras"; "version"]
                   else [tool; "--version"].
Proof.
  unfold probe_cmd, version_flags. case_decide as Ho.
  - subst. by rewrite lookup_insert_eq.
  - rewrite lookup_insert_ne by done.
    destruct (decide (tool = "skopeo")) as [-> | Hs].
    + by rewrite lookup_insert_eq.
    + by rewrite lookup_insert_ne, lookup_empty.
Qed.

(** X3.  [check_tool_availability] runs the tool once, with [version] for
    [oras] and [--version] for every other tool (known or not), and does
    not touch the file system.  It answers [True] exactly when the probe
    ends with return code 0; an expired timeout and a missing executable
    are the answer [False], not an error; only other exceptions leave the
    function. *)
Theorem check_tool_availability_probe :
  forall (subprocess_run : World -> list string -> RunResult) (tool : string)
    (w : World),
  let cmd := if decide (tool = "oras") then ["oras"; "version"]
             else [tool; "--version"] in
  let r := check_tool_availability subprocess_run tool w in
  trace (snd r) = trace w ++ [EvPopen cmd]
  /\ fs (snd r) = fs w
  /\ (fst r = Ok true <-> subprocess_run w cmd = RunCompleted 0)
  /\ (subprocess_run w cmd = RunTimeoutExpired \/ subprocess_run w cmd = RunFileNotFound
      -> fst r = Ok false)
  /\ (is_ok (fst r) = false <-> exists e, subprocess_run w cmd = RunRaises e).
Proof.
  intros subprocess_run tool w. cbn zeta. rewrite <- probe_cmd_flags.
  unfold check_tool_availability. fold (probe_cmd tool).
  destruct (subprocess_run w (probe_cmd tool)) as [rc| | |e]; cbn [fst snd log trace fs].
  - repeat split; try done.
    + intros [= H]. apply bool_decide_eq_true in H. by subst.
    + intros [= ->]. done.
    + by intros [].
    + by intros [e ?].
  - repeat split; try done. by intros [e ?].
  - repeat split; try done. by intros [e ?].
  - repeat split; try done.
    + by intros [|].
    + by exists e.
Qed.

Lemma missing_tools_loop_answers (answer : list string -> RunResult)
    (tools : list string) : forall (missing : list string) (w : World),
  (forall tool e, tool ∈ tools -> answer (probe_cmd tool) <> RunRaises e) ->
  missing_tools_loop (fun _ cmd => answer cmd) tools missing w
  = (Ok (missing ++ filter (fun tool => passes (answer (probe_cmd tool)) = false) tools),
     mkWorld (fs w) (trace w ++ map (fun tool => EvPopen (probe_cmd tool)) tools)).
Proof.
  induction tools as [|tool rest IH]; intros missing w Hno.
  - cbn. unfold ret. rewrite !app_nil_r. by destruct w.
  - cbn [missing_tools_loop]. unfold bind, check_tool_availability.
    fold (probe_cmd tool).
    assert (Hrest : forall t e, t ∈ rest -> answer (probe_cmd t) <> RunRaises e).
    { intros t e Ht. apply Hno. by right. }
    pose proof (Hno tool) as Htool.
    rewrite filter_cons. cbn [map].
    destruct (answer (probe_cmd tool)) as [rc| | |e] eqn:Ha; cbn [passes].
    + rewrite IH by done. cbn [log fs trace].
      destruct (bool_decide (rc = 0)); case_decide; try done;
        by rewrite <- !app_assoc.
    + rewrite IH by done. cbn [log fs trace]. case_decide; [|done].
      by rewrite <- !app_assoc.
    + rewrite IH by done. cbn [log fs trace]. case_decide; [|done].
      by rewrite <- !app_assoc.
    + exfalso. apply (Htool e); [by left|done].
Qed.

(** X4.  [verify_required_tools] probes every tool of the list once, in
    the order of the list, also after it has found one missing, and leaves
    the file system alone; it returns when every probe ended with return
    code 0 and calls [sys.exit(1)] otherwise.  (The answers to the probes
    are taken not to depend on the moment of the probe, and no probe
    raises an exception other than the two that are caught.) *)
Theorem verify_required_tools_checks_all :
  forall (answer : list string -> RunResult) (tools : list string) (w : World),
  (forall tool e, tool ∈ tools -> answer (probe_cmd tool) <> RunRaises e) ->
  let r := verify_required_tools (fun _ cmd => answer cmd) tools w in
  trace (snd r) = trace w ++ map (fun tool => EvPopen (probe_cmd tool)) tools
  /\ fs (snd r) = fs w
  /\ (fst r = Returned
      <-> Forall (fun tool => answer (probe_cmd tool) = RunCompleted 0) tools)
  /\ (fst r <> Returned -> fst r = SysExit 1).
Proof.
  intros answer tools w Hno. cbn zeta. unfold verify_required_tools, bind.
  rewrite missing_tools_loop_answers by done. rewrite app_nil_l.
  assert (Hpass : forall tool, passes (answer (probe_cmd tool)) = true
                               <-> answer (probe_cmd tool) = RunCompleted 0).
  { intros tool. destruct (answer (probe_cmd tool)) as [rc| | |e]; cbn; try done.
    rewrite bool_decide_eq_true. split; [by intros ->|by intros [= ->]]. }
  destruct (filter _ tools) as [|t missing] eqn:Hf; unfold ret; cbn [fst snd trace fs].
  - repeat split; try done.
    intros _. apply Forall_forall. intros tool Hin. apply Hpass.
    destruct (passes (answer (probe_cmd tool))) eqn:Hp; [done|].
    assert (Hm : tool ∈ filter (fun tool => passes (answer (probe_cmd tool)) = false) tools)
      by (apply list_elem_of_filter; done).
    rewrite Hf in Hm. by apply not_elem_of_nil in Hm.
  - repeat split; try done.
    intros Hall. exfalso.
    assert (Hm : t ∈ filter (fun tool => passes (answer (probe_cmd tool)) = false) tools)
      by (rewrite Hf; by left).
    apply list_elem_of_filter in Hm as [Hp Hin].
    rewrite Forall_forall in Hall. apply Hall, Hpass in Hin. congruence.
Qed.

Lemma verify_required_tools_checks_all_witness :
  let answer := run_without "oras" empty_world in
  let r := verify_required_tools (fun _ cmd => answer cmd) ["skopeo"; "oras"]
             empty_world in
  (forall tool e, tool ∈ ["skopeo"; "oras"] -> answer (probe_cmd tool) <> RunRaises e)
  /\ trace (snd r) = [EvPopen ["skopeo"; "--version"]; EvPopen ["oras"; "version"]]
  /\ fst r = SysExit 1.
Proof.
  intros answer r.
  assert (Hno : forall tool e, tool ∈ ["skopeo"; "oras"] ->
                  answer (probe_cmd tool) <> RunRaises e).
  { intros tool e Hin.
    apply list_elem_of_In in Hin. destruct Hin as [<- | [<- | []]]; by vm_compute. }
  destruct (verify_required_tools_checks_all answer ["skopeo"; "oras"] empty_world Hno)
    as (Htr & _ & Hiff & Hexit).
  split; [exact Hno|]. split; [exact Htr|].
  apply Hexit. intros Hret. apply Hiff in Hret.
  apply Forall_cons in Hret as [_ Hret]. apply Forall_cons in Hret as [Hret _].
  vm_compute in Hret. discriminate.
Defined.

(** ** Downloads *)


Lemma download_file_fs (env : Env) (url : string) (output_path : Path) (w : World) :
  fs (snd (download_file env url output_path w)) = fs w
  \/ exists body, fs (snd (download_file env url output_path w))
                  = <[output_path := body]> (fs w).
Proof.
  unfold download_file.
  destruct (http_get env w url) as [e|status body complete|status];
    [by left| |by case_decide; left].
  case_decide; [by left|].
  destruct (is_directory _ output_path); [by left|].
  right. exists body. by destruct complete.
Qed.

(** X6.  A retried download starts from scratch: whatever an earlier
    download to the same path did (nothing, a partial file, a complete
    file), after a later download that succeeds the file system is the
    original one with the output file holding the body of the later
    download. *)
Theorem redownload_replaces_earlier_file :
  forall (env : Env) (url : string) (output_path : Path) (w : World),
  let w1 := snd (download_file env url output_path w) in
  let r2 := download_file env url output_path w1 in
  forall status body complete,
    http_get env w1 url = HttpResponse status body complete ->
    fst r2 = Ok tt ->
    fs (snd r2) = <[output_path := body]> (fs w).
Proof.
  intros env url output_path w w1 r2 status body complete Hget Hok.
  assert (H2 : fs (snd r2) = <[output_path := body]> (fs w1)).
  { subst r2. generalize dependent w1. intros w1 Hget.
    unfold download_file. rewrite Hget.
    case_decide; [done|].
    destruct (is_directory _ output_path); [done|]. by destruct complete. }
  rewrite H2. subst w1.
  destruct (download_file_fs env url output_path w) as [-> | [b ->]]; [done|].
  apply insert_insert_eq.
Qed.

Lemma redownload_replaces_earlier_file_witness :
  let env := env_ok [x01; x02] in
  let p := mkPath "/tmp/tmpmirror" "data.bin" in
  let w1 := snd (download_file env "https://example.org/data.bin" p empty_world) in
  let r2 := download_file env "https://example.org/data.bin" p w1 in
  http_get env w1 "https://example.org/data.bin" = HttpResponse 200 [x01; x02] true
  /\ fst r2 = Ok tt
  /\ fs (snd r2) = <[p := [x01; x02]]> ∅.
Proof.
  intros env p w1 r2.
  assert (Hget : http_get env w1 "https://example.org/data.bin"
                 = HttpResponse 200 [x01; x02] true) by reflexivity.
  assert (Hok : fst r2 = Ok tt) by reflexivity.
  split; [exact Hget|]. split; [exact Hok|].
  exact (redownload_replaces_earlier_file env "https://example.org/data.bin" p
           empty_world 200 [x01; x02] true Hget Hok).
Defined.

(** ** More on the gunzip transformer *)

Lemma with_suffix_empty_parent (p out : Path) :
  with_suffix p "" = Ok out -> parent out = parent p.
Proof.
  rewrite PathFacts.with_suffix_empty.
  case_decide; [done|]. case_decide; by intros [= <-].
Qed.

(** X7.  The failures of [gunzip_transformer] on a path whose name has a
    suffix, in the order in which the code meets them.  When the input
    file does not exist, [FileNotFoundError] is raised before the output is
    opened: nothing is created.  When the input exists and the output path
    is a directory (as for an input named [..gz], whose output path is the
    directory of the input), [IsADirectoryError] is raised before anything
    is decoded: nothing is created either, whatever the input holds.  When
    the output can be opened and the decoder raises, the output file has
    already been created and keeps what was decoded before the error (it
    is not removed), and the input file is as it was. *)
Theorem gunzip_failures_leave_files :
  forall (gzip_read : bytes -> GzResult) (p : Path) (files : gmap Path bytes),
  suffix p <> "" ->
  exists out,
    with_suffix p "" = Ok out
    /\ (files !! p = None ->
        gunzip_transformer gzip_read p files = (Raise FileNotFoundError, files))
    /\ (is_Some (files !! p) -> is_directory files out = true ->
        gunzip_transformer gzip_read p files = (Raise IsADirectoryError, files))
    /\ (forall content handed_out e,
          files !! p = Some content ->
          is_directory files out = false ->
          gzip_read content = GzFails handed_out e ->
          gunzip_transformer gzip_read p files
          = (Raise e, <[out := handed_out]> files)
          /\ (<[out := handed_out]> files) !! p = Some content).
Proof.
  intros gzip_read p files Hs.
  destruct (PathFacts.with_suffix_strips p Hs) as (out & Hw & _ & _ & Hne).
  exists out. split; [done|]. split; [|split].
  - intros Hnone. unfold gunzip_transformer. by rewrite Hw, Hnone.
  - intros [content Hp] Hd. unfold gunzip_transformer. by rewrite Hw, Hp, Hd.
  - intros content handed_out e Hp Hd Hfail. split.
    + unfold gunzip_transformer. rewrite Hw, Hp, Hd.
      rewrite lookup_insert_ne, Hp by done. cbn [default]. unfold id.
      rewrite Hfail. by rewrite insert_insert_eq.
    + by rewrite lookup_insert_ne.
Qed.

Lemma gunzip_failures_leave_files_witness :
  let p := mkPath "/tmp/tmpmirror" "page.html" in
  let out := mkPath "/tmp/tmpmirror" "page" in
  let d := mkPath "/tmp/tmpmirror" "..gz" in
  suffix p <> "" /\ suffix d <> ""
  /\ gunzip_transformer framed_read p ∅ = (Raise FileNotFoundError, ∅)
  /\ gunzip_transformer framed_read p {[ p := [x3c] ]}
     = (Raise BadGzipFile, <[out := []]> {[ p := [x3c] ]})
  /\ gunzip_transformer framed_read d {[ d := [x3c] ]}
     = (Raise IsADirectoryError, {[ d := [x3c] ]}).
Proof.
  intros p out d.
  assert (Hs : suffix p <> "") by (vm_compute; discriminate).
  assert (Hsd : suffix d <> "") by (vm_compute; discriminate).
  destruct (gunzip_failures_leave_files framed_read p ∅ Hs) as (o & Hw & Hmiss & _).
  destruct (gunzip_failures_leave_files framed_read p {[ p := [x3c] ]} Hs)
    as (o' & Hw' & _ & _ & Hfail).
  destruct (gunzip_failures_leave_files framed_read d {[ d := [x3c] ]} Hsd)
    as (o'' & Hw'' & _ & Hdir & _).
  assert (Hc : with_suffix p "" = Ok out) by (vm_compute; reflexivity).
  rewrite Hc in Hw'. injection Hw' as <-.
  assert (Hcd : with_suffix d "" = Ok (mkPath "/tmp/tmpmirror" "."))
    by (vm_compute; reflexivity).
  rewrite Hcd in Hw''. injection Hw'' as <-.
  split; [exact Hs|]. split; [exact Hsd|].
  split; [apply Hmiss; apply lookup_empty|]. split.
  - apply (Hfail [x3c] [] BadGzipFile);
      [apply lookup_singleton_eq|apply is_directory_name; discriminate|reflexivity].
  - apply Hdir; [eexists; apply lookup_singleton_eq|].
    unfold is_directory. rewrite lookup_singleton_ne by discriminate. reflexivity.
Defined.

(** X8.  Whatever its input and whatever the decoder does,
    [gunzip_transformer] writes at most one file, the one at
    [input_path.with_suffix("")], which lies in the directory of the input;
    every other file is left as it was, and a path it returns is that
    output path. *)
Theorem gunzip_writes_only_its_output :
  forall (gzip_read : bytes -> GzResult) (p : Path) (files : gmap Path bytes),
  let r := gunzip_transformer gzip_read p files in
  match with_suffix p "" with
  | Raise e => r = (Raise e, files)
  | Ok out =>
      parent out = parent p
      /\ (forall q, q <> out -> snd r !! q = files !! q)
      /\ (forall x, fst r = Ok x -> x = out)
  end.
Proof.
  intros gzip_read p files. cbn zeta.
  destruct (with_suffix p "") as [out|e] eqn:Hw.
  - split; [by apply with_suffix_empty_parent|].
    unfold gunzip_transformer. rewrite Hw.
    destruct (files !! p) as [content|]; [|by split].
    destruct (is_directory files out); [by split|].
    destruct (gzip_read _) as [data|handed_out e]; cbn [fst snd]; split;
      try (intros q Hq; by rewrite !lookup_insert_ne); try done.
    by intros x [= <-].
  - unfold gunzip_transformer. by rewrite Hw.
Qed.

(** ** More on the pipeline *)

Lemma apply_transforms_app_eq (T : gmap string Transformer)
    (ts1 ts2 : list (gmap string string)) : forall (p : Path) (w : World),
  apply_transforms T p (ts1 ++ ts2) w
  = match apply_transforms T p ts1 w with
    | (Ok q, w1) => apply_transforms T q ts2 w1
    | (Raise e, w1) => (Raise e, w1)
    end.
Proof.
  induction ts1 as [|t ts1 IH]; intros p w; [done|].
  rewrite <- app_comm_cons, !apply_transforms_step.
  destruct (resolve_step T t) as [transformer|]; [|done].
  destruct (run_transformer transformer p w) as [[q|e] w1]; [apply IH|done].
Qed.

(** X9.  The pipeline composes: applying the concatenation of two lists
    of steps is applying the first list and then, if that gave a path, the
    second list to that path in the world the first list left; if the first
    list raised, that exception is the result. *)
Theorem apply_transforms_composes :
  forall (T : gmap string Transformer) (ts1 ts2 : list (gmap string string))
    (p : Path) (w : World),
  apply_transforms T p (ts1 ++ ts2) w
  = match apply_transforms T p ts1 w with
    | (Ok q, w1) => apply_transforms T q ts2 w1
    | (Raise e, w1) => (Raise e, w1)
    end.
Proof. intros. apply apply_transforms_app_eq. Qed.

(** X10.  The pipeline stops at the first step that fails.  Once the steps
    so far have raised, the steps after them change nothing (their
    transformers are not run); and a step of an unregistered type raises
    [ValueError] in the world that the steps before it have left: their
    files stay as they are, nothing is undone. *)
Theorem apply_transforms_stops_at_failure :
  forall (T : gmap string Transformer) (ts1 ts2 : list (gmap string string))
    (p : Path) (w : World),
  (is_ok (fst (apply_transforms T p ts1 w)) = false ->
     apply_transforms T p (ts1 ++ ts2) w = apply_transforms T p ts1 w)
  /\ (forall bad q w1,
        unregistered T bad ->
        apply_transforms T p ts1 w = (Ok q, w1) ->
        apply_transforms T p (ts1 ++ bad :: ts2) w
        = (Raise (ValueError "Unknown transformer type"), w1)).
Proof.
  intros T ts1 ts2 p w. split.
  - intros Hfail. rewrite apply_transforms_app_eq.
    by destruct (apply_transforms T p ts1 w) as [[q|e] w1].
  - intros bad q w1 Hun H1. rewrite apply_transforms_app_eq, H1.
    rewrite apply_transforms_step. unfold unregistered in Hun. by rewrite Hun.
Qed.

Lemma apply_transforms_stops_at_failure_witness :
  let T := TRANSFORMERS0 framed_read in
  let p := mkPath "/tmp/tmpmirror" "data.json.gz" in
  let out := mkPath "/tmp/tmpmirror" "data.json" in
  let w := mkWorld {[ p := framed_compress [x01] ]} [] in
  let w1 := mkWorld (<[out := [x01]]> {[ p := framed_compress [x01] ]}) [] in
  unregistered T (step_of_type "bzip2")
  /\ apply_transforms T p [step_of_type "gunzip"] w = (Ok out, w1)
  /\ apply_transforms T p
       ([step_of_type "gunzip"] ++ step_of_type "bzip2" :: [step_of_type "gunzip"]) w
     = (Raise (ValueError "Unknown transformer type"), w1).
Proof.
  intros T p out w w1.
  assert (Hun : unregistered T (step_of_type "bzip2")) by (vm_compute; reflexivity).
  assert (H1 : apply_transforms T p [step_of_type "gunzip"] w = (Ok out, w1)).
  { cbn [apply_transforms]. vm_compute. reflexivity. }
  destruct (apply_transforms_stops_at_failure T [step_of_type "gunzip"]
              [step_of_type "gunzip"] p w) as [_ H].
  split; [exact Hun|]. split; [exact H1|].
  exact (H (step_of_type "bzip2") out w1 Hun H1).
Defined.

(** ** More on the retry loops *)

Section RetryOutcome.

Variable op : M bool.
Variable retry_attempts : Z.
Variable retry_delay : N.

Local Abbreviation loop := (retry_loop op retry_attempts retry_delay).

(** Among the first [m] attempts either all fail or one is the first to
    succeed. *)
Lemma first_success_or_all_fail (w : World) (m : nat) :
  (forall j, (1 <= j <= m)%nat ->
     attempt_succeeds op retry_attempts retry_delay j w = false)
  \/ (exists k, (k <= m)%nat /\ first_success op retry_attempts retry_delay k w).
Proof.
  induction m as [|m [IH | (k & Hk & Hfirst)]].
  - left. intros j Hj. lia.
  - destruct (attempt_succeeds op retry_attempts retry_delay (S m) w) eqn:Hm.
    + right. exists (S m). split; [lia|]. split; [lia|]. split; [|done].
      intros j Hj. apply IH. lia.
    + left. intros j Hj. destruct (decide (j = S m)) as [-> | Hne]; [done|].
      apply IH. lia.
  - right. exists k. split; [lia|done].
Qed.

Lemma retry_loop_outcome (w : World) :
  (fst (loop (py_range 1 (retry_attempts + 1)) w) = true
   /\ exists k, Z.of_nat k <= retry_attempts
                /\ first_success op retry_attempts retry_delay k w)
  \/ (fst (loop (py_range 1 (retry_attempts + 1)) w) = false
      /\ all_fail op retry_attempts retry_delay w).
Proof.
  destruct (first_success_or_all_fail w (Z.to_nat retry_attempts))
    as [Hall | (k & Hk & Hfirst)].
  - right. split.
    + rewrite (retry_loop_failure op retry_attempts retry_delay
                 (Z.to_nat retry_attempts)); [done|lia|].
      intros j Hj. specialize (Hall (S j) ltac:(lia)).
      unfold attempt_succeeds in Hall.
      by replace (S j - 1)%nat with j in Hall by lia.
    + intros j H1 H2. apply Hall. lia.
  - left. pose proof Hfirst as (H1 & Hfail & Hok). split.
    + unfold attempt_succeeds in *.
      rewrite (retry_loop_success op retry_attempts retry_delay (k - 1)); [done|lia| |done].
      intros j Hj. specialize (Hfail (S j) ltac:(lia)).
      by replace (S j - 1)%nat with j in Hfail by lia.
    + exists k. split; [lia|done].
Qed.

(** The number of attempts a run makes determines what it adds to every
    class of events. *)
Lemma retry_loop_profile (w : World) :
  exists a : nat,
    (a <= Z.to_nat retry_attempts)%nat
    /\ (fst (loop (py_range 1 (retry_attempts + 1)) w) = true -> (1 <= a)%nat)
    /\ (fst (loop (py_range 1 (retry_attempts + 1)) w) = false
        -> a = Z.to_nat retry_attempts)
    /\ forall (f : Event -> bool) (c : nat),
         (forall w1, count f (trace (snd (op w1))) = (count f (trace w1) + c)%nat) ->
         count f (trace (snd (loop (py_range 1 (retry_attempts + 1)) w)))
         = (count f (trace w) + a * c
            + (a - 1) * (if f (EvSleep retry_delay) then 1 else 0))%nat.
Proof.
  destruct (retry_loop_outcome w) as [[Htrue (k & Hk & Hfirst)] | [Hfalse Hall]].
  - exists k. pose proof Hfirst as (H1 & _).
    split; [lia|]. split; [done|]. split; [congruence|].
    intros f c Hc.
    by destruct (retry_success_count op retry_attempts retry_delay f c Hc k w Hfirst Hk).
  - exists (Z.to_nat retry_attempts). split; [done|]. split; [congruence|].
    split; [done|]. intros f c Hc.
    destruct (decide (1 <= retry_attempts)) as [Hn|Hn].
    + by destruct (retry_failure_count op retry_attempts retry_delay f c Hc w Hn Hall).
    + rewrite py_range_nil by lia. cbn [retry_loop]. unfold ret. cbn [snd].
      replace (Z.to_nat retry_attempts) with O by lia. lia.
Qed.

(** A property of the file system that the operation keeps is kept by
    the loop. *)
Lemma retry_loop_keeps (P : gmap Path bytes -> Prop) :
  (forall w1, P (fs w1) -> P (fs (snd (op w1)))) ->
  forall (attempts : list Z) (w : World),
    P (fs w) -> P (fs (snd (loop attempts w))).
Proof.
  intros Hop. induction attempts as [|attempt rest IH]; intros w Hw; [done|].
  rewrite retry_loop_step. destruct (fst (op w)); [by apply Hop|].
  apply IH. unfold pause. case_decide; cbn; by apply Hop.
Qed.

End RetryOutcome.


Lemma mirror_image_counts (env : Env) (source destination tag owner user password : string)
    (f : Event -> bool) (w1 : World) :
  count f (trace (snd (image_attempt env source destination tag owner user password w1)))
  = (count f (trace w1)
     + (if f (EvPopen (skopeo_cmd user password (source +:+ ":" +:+ tag)
                         (PyStr.replace OWNER_TOKEN owner destination +:+ ":" +:+ tag)))
        then 1 else 0))%nat.
Proof. apply image_op_count. Qed.


(** ** What touches the file system *)

Lemma gunzip_transformer_frame (gzip_read : bytes -> GzResult) (p : Path)
    (files : gmap Path bytes) :
  (forall q, parent q <> parent p ->
     snd (gunzip_transformer gzip_read p files) !! q = files !! q)
  /\ (forall x, fst (gunzip_transformer gzip_read p files) = Ok x ->
        parent x = parent p).
Proof.
  unfold gunzip_transformer.
  destruct (with_suffix p "") as [out|e] eqn:Hw; [|by split].
  apply with_suffix_empty_parent in Hw.
  destruct (files !! p) as [content|]; [|by split].
  assert (Hq : forall q, parent q <> parent p -> q <> out) by (intros q Hq ->; congruence).
  destruct (is_directory files out); [by split|].
  destruct (gzip_read _) as [data|handed_out e]; cbn [fst snd]; split;
    try (intros q Hne; by rewrite !lookup_insert_ne by (symmetry; by apply Hq));
    try done.
  by intros x [= <-].
Qed.

Lemma apply_transforms_builtin_frame (gzip_read : bytes -> GzResult)
    (transforms : list (gmap string string)) : forall (p : Path) (w : World),
  (forall q, parent q <> parent p ->
     fs (snd (apply_transforms (TRANSFORMERS0 gzip_read) p transforms w)) !! q
     = fs w !! q)
  /\ (forall x, fst (apply_transforms (TRANSFORMERS0 gzip_read) p transforms w) = Ok x ->
        parent x = parent p).
Proof.
  induction transforms as [|t rest IH]; intros p w.
  - split; [done|]. by intros x [= <-].
  - rewrite apply_transforms_step.
    destruct (resolve_step (TRANSFORMERS0 gzip_read) t) as [transformer|] eqn:Hr;
      [|by split].
    assert (transformer = gunzip_transformer gzip_read) as ->.
    { unfold resolve_step, TRANSFORMERS0, register_transformer in Hr.
      destruct (t !! "type") as [n|]; [|done]. cbn in Hr.
      apply lookup_insert_Some in Hr as [[_ <-] | [_ Hr]]; [done|].
      by rewrite lookup_empty in Hr. }
    unfold run_transformer.
    destruct (gunzip_transformer_frame gzip_read p (fs w)) as [Hframe Hpar].
    destruct (gunzip_transformer gzip_read p (fs w)) as [[x|e] files]; cbn [fst snd] in *.
    + specialize (Hpar x eq_refl).
      destruct (IH x (mkWorld files (trace w))) as [IHf IHp]. split.
      * intros q Hq. rewrite IHf by congruence. cbn [fs]. by apply Hframe.
      * intros y Hy. rewrite (IHp y Hy). done.
    + split; [|done]. intros q Hq. cbn [fs]. by apply Hframe.
Qed.

Lemma file_attempt_builtin_frame (env : Env) (gzip_read : bytes -> GzResult)
    (source destination : string) (tags : list string)
    (transforms : list (gmap string string)) (owner user password : string)
    (mime : option string) (tmpdir : string) (w : World) (q : Path) :
  parent q <> tmpdir ->
  fs (snd (file_attempt env (TRANSFORMERS0 gzip_read) source destination tags transforms
             owner user password mime tmpdir w)) !! q = fs w !! q.
Proof.
  intros Hq. unfold file_attempt, file_op, mirror_file_try, bind.
  set (dp := path_join tmpdir (PyStr.last_segment source)).
  assert (Hd : fs (snd (download_file env source dp w)) !! q = fs w !! q).
  { destruct (download_file_fs env source dp w) as [-> | [b ->]]; [done|].
    apply lookup_insert_ne. intros <-. by apply Hq. }
  destruct (download_file env source dp w) as [[[]|e] w1]; cbn [snd] in Hd; [|done].
  set (t := match transforms with [] => _ | _ => _ end).
  assert (Ht : fs (snd (t w1)) !! q = fs w1 !! q).
  { subst t. destruct transforms; [done|].
    by apply apply_transforms_builtin_frame. }
  destruct (t w1) as [[x|e] w2]; cbn [snd] in Ht; [|unfold ret; cbn; congruence].
  unfold push_file_to_registry, bind, run_process.
  destruct (popen env w2 _); unfold ret; cbn [snd log fs]; congruence.
Qed.

(** X14.  With the registry as the module loads it (only [gunzip]), a
    file job works inside its temporary directory only: after
    [mirror_file], whatever its outcome, every file outside the temporary
    directory is exactly as before and nothing is left inside it. *)
Theorem mirror_file_works_in_its_tmpdir :
  forall (env : Env) (gzip_read : bytes -> GzResult) (source destination : string)
    (tags : list string) (transforms : list (gmap string string))
    (owner user password : string) (mime : option string)
    (retry_attempts : Z) (retry_delay : N) (w : World) (q : Path),
  fs (snd (mirror_file env (TRANSFORMERS0 gzip_read) source destination tags transforms
             owner user password mime retry_attempts retry_delay w)) !! q
  = if under (mkdtemp env w) q then None else fs w !! q.
Proof.
  intros. rewrite mirror_file_unfold. cbn zeta. cbn [snd].
  set (tmpdir := mkdtemp env w).
  set (op := file_attempt _ _ _ _ _ _ _ _ _ _ _).
  set (w1 := snd (retry_loop op retry_attempts retry_delay _ _)).
  unfold cleanup_tmpdir. cbn [snd log fs].
  destruct (under tmpdir q) eqn:Hu.
  - apply map_lookup_filter_None. right. intros data _. cbn. by rewrite Hu.
  - assert (Hq : parent q <> tmpdir).
    { intros Heq. unfold under in Hu. by rewrite bool_decide_eq_true_2 in Hu. }
    assert (Hkeep : fs w1 !! q = fs w !! q).
    { subst w1.
      apply (retry_loop_keeps op retry_attempts retry_delay
               (fun files => files !! q = fs w !! q)); [|done].
      intros w2 H2. subst op. by rewrite file_attempt_builtin_frame. }
    rewrite <- Hkeep. destruct (fs w1 !! q) as [data|] eqn:Hl.
    + apply map_lookup_filter_Some. split; [done|]. cbn. done.
    + apply map_lookup_filter_None. by left.
Qed.

(** ** Command lines *)

(** X15.  The command line that [mirror_image] prints before an attempt
    does not depend on the credentials: it shows the tool, the option name
    and the two image references, with a fixed text in the place of
    [username:password]. *)
Theorem running_line_hides_credentials :
  forall (user password user' password' source_full dest_full : string),
  running_line (skopeo_cmd user password source_full dest_full)
  = running_line (skopeo_cmd user' password' source_full dest_full)
  /\ running_line (skopeo_cmd user password source_full dest_full)
     = "Running: skopeo copy --dest-creds [credentials hidden] docker://"
       +:+ source_full +:+ " docker://" +:+ dest_full.
Proof. intros. split; reflexivity. Qed.

(** X16.  [push_file_to_registry] never raises: it returns [True]
    exactly when the push tool exits with code 0, and [False] when it exits
    with another code or cannot be started.  Its command has the five
    arguments [oras push --disable-path-validation ref file]; a media type
    adds [--artifact-type type] behind them, and an empty media type is
    treated as none.  With an empty list of tags the reference ends in a
    colon. *)
Theorem push_command_and_result :
  forall (env : Env) (file_path : Path) (destination : string) (tags : list string)
    (owner user password : string) (mime : option string) (w : World),
  let ref := PyStr.replace OWNER_TOKEN owner destination +:+ ":"
             +:+ PyStr.join "," tags in
  let base := ["oras"; "push"; "--disable-path-validation"; ref; path_str file_path] in
  let cmd := oras_push_cmd ref file_path mime in
  let r := push_file_to_registry env file_path destination tags owner user password
             mime w in
  (fst r = true <-> popen env w cmd = Exited 0)
  /\ (mime = None \/ mime = Some "" -> cmd = base)
  /\ (forall m, mime = Some m -> m <> "" -> cmd = base ++ ["--artifact-type"; m])
  /\ (tags = [] -> ref = PyStr.replace OWNER_TOKEN owner destination +:+ ":").
Proof.
  intros env file_path destination tags owner user password mime w. cbn zeta.
  split; [|split; [|split]].
  - unfold push_file_to_registry, bind, run_process.
    destruct (popen env w _) as [e|rc]; unfold ret; cbn [fst].
    + split; done.
    + rewrite bool_decide_eq_true. split; [by intros ->|by intros [= ->]].
  - intros [-> | ->]; reflexivity.
  - intros m -> Hm. unfold oras_push_cmd, truthy.
    by rewrite bool_decide_eq_true_2.
  - intros ->. cbn [PyStr.join]. by rewrite PathFacts.append_empty_r.
Qed.

(** ** No job is skipped *)

(** With at least one attempt allowed, the source of a file job is
    requested. *)
Lemma mirror_file_requests_source (env : Env) (T : gmap string Transformer)
    (source destination : string) (tags : list string)
    (transforms : list (gmap string string)) (owner user password : string)
    (mime : option string) (retry_attempts : Z) (retry_delay : N) (w : World) :
  1 <= retry_attempts ->
  EvHttpGet source
  ∈ trace (snd (mirror_file env T source destination tags transforms owner user
                  password mime retry_attempts retry_delay w)).
Proof.
  intros Hn. rewrite mirror_file_unfold. cbn zeta. cbn [snd].
  unfold cleanup_tmpdir. cbn [snd log trace]. apply elem_of_app. left.
  rewrite py_range_cons by lia. rewrite retry_loop_step.
  set (op := file_attempt _ _ _ _ _ _ _ _ _ _ _).
  set (w0 := log _ w).
  assert (H1 : EvHttpGet source ∈ trace (snd (op w0))).
  { subst op. unfold file_attempt.
    destruct (file_op_trace env T source
                (path_join (mkdtemp env w) (PyStr.last_segment source)) destination tags
                transforms owner user password mime w0) as (delta & -> & _).
    apply elem_of_app. right. by left. }
  destruct (fst (op w0)); [done|].
  eapply (emits_grows (fun _ => True)).
  - apply emits_retry_loop; [|done]. intros w1.
    destruct (emits_file_attempt env T source destination tags transforms owner user
                password mime (mkdtemp env w) retry_delay w1) as (delta & H & _).
    exists delta. split; [exact H|]. by apply Forall_true.
  - unfold pause. case_decide; cbn [sleep ret snd log trace]; [|done].
    apply elem_of_app. by left.
Qed.

Lemma process_docker_runs_every_tag (env : Env) (owner user password : string)
    (retry_attempts : Z) (retry_delay : N) (mirrors : list DockerMirror)
    (mirror : DockerMirror) (tag : string) : forall (failed : Z) (w : World),
  1 <= retry_attempts -> mirror ∈ mirrors -> tag ∈ d_tags mirror ->
  EvPopen (skopeo_cmd user password (d_source mirror +:+ ":" +:+ tag)
             (PyStr.replace OWNER_TOKEN owner (d_destination mirror) +:+ ":" +:+ tag))
  ∈ trace (snd (process_docker env owner user password retry_attempts retry_delay
                  mirrors failed w)).
Proof.
  intros failed w Hn. revert failed w.
  induction mirrors as [|m rest IH]; intros failed w Hin Htag;
    [by apply elem_of_nil in Hin|].
  cbn [process_docker]. unfold bind.
  pose proof (fun Ht => mirror_tags_runs_every_tag env owner user password retry_attempts
                retry_delay (d_source m) (d_destination m) (d_tags m) tag failed w Hn Ht)
    as H1.
  destruct (mirror_tags _ _ _ _ _ _ _ _ _ _ w) as [f w1]. cbn [snd] in H1.
  apply elem_of_cons in Hin as [-> | Hin].
  - eapply emits_grows; [apply emits_process_docker|by apply H1].
  - by apply IH.
Qed.

Lemma process_files_requests_every_source (env : Env) (T : gmap string Transformer)
    (owner user password : string) (retry_attempts : Z) (retry_delay : N)
    (files : list FileMirror) (job : FileMirror) : forall (failed : Z) (w : World),
  1 <= retry_attempts -> job ∈ files ->
  EvHttpGet (f_source job)
  ∈ trace (snd (process_files env T owner user password retry_attempts retry_delay
                  files failed w)).
Proof.
  intros failed w Hn. revert failed w.
  induction files as [|f rest IH]; intros failed w Hin; [by apply elem_of_nil in Hin|].
  cbn [process_files]. unfold bind.
  pose proof (mirror_file_requests_source env T (f_source f) (f_destination f)
                (f_tags f) (f_transforms f) owner user password (f_mime f)
                retry_attempts retry_delay w Hn) as H1.
  destruct (mirror_file _ _ _ _ _ _ _ _ _ _ _ _ w) as [ok w1]. cbn [snd] in H1.
  apply elem_of_cons in Hin as [-> | Hin].
  - eapply emits_grows; [apply emits_process_files|done].
  - by apply IH.
Qed.



(** ** The start of [main] *)

(** X18.  The credentials are read from the environment with a fixed
    precedence, and an empty value counts as unset: the owner is
    [GITHUB_TARGET_REPO_OWNER], else [GITHUB_REPOSITORY_OWNER], else
    [GITHUB_ACTOR]; the user name is [GITHUB_USERNAME], else
    [GITHUB_ACTOR].  An owner is found exactly when one of its three
    variables is set to a non-empty value. *)
Theorem credentials_precedence :
  forall environ : gmap string string,
  let target := environ !! "GITHUB_TARGET_REPO_OWNER" in
  let repo_owner := environ !! "GITHUB_REPOSITORY_OWNER" in
  let actor := environ !! "GITHUB_ACTOR" in
  let username := environ !! "GITHUB_USERNAME" in
  (truthy target = true -> registry_owner_of environ = target)
  /\ (truthy target = false -> truthy repo_owner = true ->
      registry_owner_of environ = repo_owner)
  /\ (truthy target = false -> truthy repo_owner = false ->
      registry_owner_of environ = actor)
  /\ (truthy username = true -> registry_username_of environ = username)
  /\ (truthy username = false -> registry_username_of environ = actor)
  /\ truthy (registry_owner_of environ)
     = truthy target || truthy repo_owner || truthy actor
  /\ truthy (registry_username_of environ) = truthy username || truthy actor.
Proof.
  intros environ. cbn zeta. unfold registry_owner_of, registry_username_of, py_or.
  destruct (truthy (environ !! "GITHUB_TARGET_REPO_OWNER")) eqn:Ht;
  destruct (truthy (environ !! "GITHUB_REPOSITORY_OWNER")) eqn:Hr;
  destruct (truthy (environ !! "GITHUB_USERNAME")) eqn:Hu;
  rewrite ?Ht, ?Hr, ?Hu; repeat split; try done.
Qed.

Lemma missing_tools_loop_probes (subprocess_run : World -> list string -> RunResult)
    (tools : list string) : forall (missing : list string) (w : World),
  let r := missing_tools_loop subprocess_run tools missing w in
  fs (snd r) = fs w
  /\ exists k, trace (snd r)
               = trace w ++ map (fun tool => EvPopen (probe_cmd tool)) (take k tools).
Proof.
  induction tools as [|tool rest IH]; intros missing w; cbn zeta.
  - split; [done|]. exists O. cbn. by rewrite app_nil_r.
  - cbn [missing_tools_loop]. unfold bind, check_tool_availability.
    fold (probe_cmd tool).
    set (w1 := log (EvPopen (probe_cmd tool)) w).
    assert (Hstop : forall (x : result (list string)),
              fs (snd (x, w1)) = fs w
              /\ exists k, trace (snd (x, w1))
                           = trace w ++ map (fun tool => EvPopen (probe_cmd tool))
                                          (take k (tool :: rest))).
    { intros x. split; [done|]. by exists 1%nat. }
    assert (Hgo : forall m,
              fs (snd (missing_tools_loop subprocess_run rest m w1)) = fs w
              /\ exists k, trace (snd (missing_tools_loop subprocess_run rest m w1))
                           = trace w ++ map (fun tool => EvPopen (probe_cmd tool))
                                          (take k (tool :: rest))).
    { intros m. destruct (IH m w1) as [Hfs [k Hk]]. split; [by rewrite Hfs|].
      exists (S k). rewrite Hk. cbn [take map log trace w1].
      by rewrite <- app_assoc. }
    destruct (subprocess_run w (probe_cmd tool)) as [rc| | |e]; try apply Hgo.
    apply Hstop.
Qed.

Lemma verify_required_tools_probes (subprocess_run : World -> list string -> RunResult)
    (tools : list string) (w : World) :
  let r := verify_required_tools subprocess_run tools w in
  fs (snd r) = fs w
  /\ (fst r <> Returned -> exit_code (fst r) = 1)
  /\ exists k, trace (snd r)
               = trace w ++ map (fun tool => EvPopen (probe_cmd tool)) (take k tools).
Proof.
  cbn zeta. unfold verify_required_tools, bind.
  destruct (missing_tools_loop_probes subprocess_run tools [] w) as [Hfs Hk].
  destruct (missing_tools_loop subprocess_run tools [] w) as [[[|t m]|e] w1];
    unfold ret; cbn [fst snd] in *; by repeat split.
Qed.

(** X19.  Nothing is mirrored unless the configuration file exists, every
    required tool passes its probe and all three credentials are set to
    non-empty values.  If one of these fails, the process ends with exit
    code 1, the file system is untouched, and the only processes that
    were started are version probes of required tools: no copy, no
    login, no download, no push. *)
Theorem script_halts_before_mirroring :
  forall (subprocess_run : World -> list string -> RunResult) (env : Env)
    (T : gmap string Transformer) (config : Config) (environ : gmap string string)
    (w : World),
  script subprocess_run env T None environ w = (SysExit 1, w)
  /\ (let r := script subprocess_run env T (Some config) environ w in
      let checked := verify_required_tools subprocess_run (required_tools config) w in
      fst checked <> Returned
      \/ truthy (registry_owner_of environ) && truthy (registry_username_of environ)
         && truthy (registry_password_of environ) = false ->
      exit_code (fst r) = 1
      /\ fs (snd r) = fs w
      /\ exists k, trace (snd r)
                   = trace w ++ map (fun tool => EvPopen (probe_cmd tool))
                                  (take k (required_tools config))).
Proof.
  intros subprocess_run env T config environ w. split; [done|]. cbn zeta.
  unfold script, bind.
  destruct (verify_required_tools_probes subprocess_run (required_tools config) w)
    as (Hfs & Hexit & Hk).
  destruct (verify_required_tools subprocess_run (required_tools config) w)
    as [checked w1]. cbn [fst snd] in *.
  intros Hbad. destruct checked as [|code|e].
  - destruct Hbad as [? | Hcreds]; [done|].
    destruct (truthy (registry_owner_of environ)),
             (truthy (registry_username_of environ)),
             (truthy (registry_password_of environ)); try done;
      unfold ret; cbn [negb orb fst snd exit_code]; by repeat split.
  - unfold ret. cbn [fst snd]. split; [by apply Hexit|]. by split.
  - unfold ret. cbn [fst snd]. split; [by apply Hexit|]. by split.
Qed.

Lemma script_halts_before_mirroring_witness :
  let T := TRANSFORMERS0 framed_read in
  let config := mkConfig
                  (Some [mkDockerMirror "docker.io/library/alpine"
                           "ghcr.io/{{GITHUB_REPOSITORY_OWNER}}/alpine" ["v1"]])
                  None None None in
  let environ : gmap string string :=
        <["GITHUB_ACTOR" := "acme"]> ∅ in
  let r := script run_all_ok (env_ok []) T (Some config) environ empty_world in
  truthy (registry_owner_of environ) && truthy (registry_username_of environ)
  && truthy (registry_password_of environ) = false
  /\ exit_code (fst r) = 1
  /\ trace (snd r) = [EvPopen ["skopeo"; "--version"]].
Proof.
  intros T config environ r.
  assert (Hc : truthy (registry_owner_of environ)
               && truthy (registry_username_of environ)
               && truthy (registry_password_of environ) = false)
    by (vm_compute; reflexivity).
  destruct (script_halts_before_mirroring run_all_ok (env_ok []) T config environ
              empty_world) as [_ H].
  destruct (H (or_intror Hc)) as (Hexit & _ & _).
  split; [exact Hc|]. split; [exact Hexit|]. vm_compute. reflexivity.
Defined.

(** X20.  A configuration without image and file jobs (the lists absent
    or empty) needs no tool and does nothing: no tool is probed, no event
    happens, and the process ends with exit code 0; but the credentials are
    still demanded: when one of them is missing the process ends with
    [sys.exit(1)] all the same. *)
Theorem script_with_empty_configuration :
  forall (subprocess_run : World -> list string -> RunResult) (env : Env)
    (T : gmap string Transformer) (config : Config) (environ : gmap string string)
    (w : World),
  nonempty (c_docker config) = false ->
  nonempty (c_files config) = false ->
  script subprocess_run env T (Some config) environ w
  = (if truthy (registry_owner_of environ) && truthy (registry_username_of environ)
        && truthy (registry_password_of environ)
     then Returned else SysExit 1, w).
Proof.
  intros subprocess_run env T config environ w Hd Hf.
  unfold script, required_tools. rewrite Hd, Hf. cbn [app].
  unfold verify_required_tools, bind. cbn [missing_tools_loop]. unfold ret.
  destruct (truthy (registry_owner_of environ)),
           (truthy (registry_username_of environ)),
           (truthy (registry_password_of environ)); cbn [negb orb andb]; try done.
  assert (default [] (c_docker config) = []) as ->.
  { destruct (c_docker config) as [[|]|]; done. }
  assert (default [] (c_files config) = []) as ->.
  { destruct (c_files config) as [[|]|]; done. }
  reflexivity.
Qed.

Lemma script_with_empty_configuration_witness :
  let config := mkConfig (Some []) None (Some 5) None in
  let environ : gmap string string :=
        <["GITHUB_TOKEN" := "token"]> (<["GITHUB_ACTOR" := "acme"]> ∅) in
  nonempty (c_docker config) = false /\ nonempty (c_files config) = false
  /\ script run_all_ok (env_ok []) (TRANSFORMERS0 framed_read) (Some config) environ
       empty_world = (Returned, empty_world).
Proof.
  intros config environ. split; [done|]. split; [done|].
  rewrite (script_with_empty_configuration run_all_ok (env_ok [])
             (TRANSFORMERS0 framed_read) config environ empty_world eq_refl eq_refl).
  vm_compute. reflexivity.
Defined.

(** ** Exit codes and the failure counter *)

Lemma count_false_le_length (oks : list bool) : count_false oks <= Z.of_nat (length oks).
Proof.
  induction oks as [|ok oks IH]; [done|].
  rewrite count_false_cons. cbn [length]. destruct ok; lia.
Qed.

(** X21.  A run of [main] ends with exit code 0 or 1, never with another
    one, and its failure counter stays between 0 and the number of image
    tags plus the number of file jobs; the whole script, with its checks in
    front, ends with exit code 0 or 1 as well. *)
Theorem exit_code_is_zero_or_one :
  forall (subprocess_run : World -> list string -> RunResult) (env : Env)
    (T : gmap string Transformer) (owner user password : string)
    (retry_attempts : Z) (retry_delay : N)
    (docker_mirrors : list DockerMirror) (file_mirrors : list FileMirror)
    (config : option Config) (environ : gmap string string) (w : World),
  let run := main env T owner user password retry_attempts retry_delay
               docker_mirrors file_mirrors w in
  (exit_code (fst (fst run)) = 0 \/ exit_code (fst (fst run)) = 1)
  /\ 0 <= snd (fst run)
     <= Z.of_nat (length (concat (map d_tags docker_mirrors)) + length file_mirrors)
  /\ (exit_code (fst (script subprocess_run env T config environ w)) = 0
      \/ exit_code (fst (script subprocess_run env T config environ w)) = 1).
Proof.
  intros subprocess_run env T owner user password retry_attempts retry_delay
    docker_mirrors file_mirrors config environ w.
  assert (Hmain : forall o u p n d dm fm w0,
            let run := main env T o u p n d dm fm w0 in
            (exit_code (fst (fst run)) = 0 \/ exit_code (fst (fst run)) = 1)
            /\ 0 <= snd (fst run)
               <= Z.of_nat (length (concat (map d_tags dm)) + length fm)).
  { intros o u p n d dm fm w0. cbn zeta. unfold main, bind.
    rewrite process_docker_outcomes.
    pose proof (docker_outcomes_length env o u p n d dm w0) as Hlen.
    destruct (docker_outcomes _ _ _ _ _ _ dm w0) as [images w1]. cbn [fst snd] in *.
    pose proof (count_false_nonneg images). pose proof (count_false_le_length images).
    assert (Hfin : forall failed, exit_code (fst (finish failed)) = 0
                                  \/ exit_code (fst (finish failed)) = 1).
    { intros failed. unfold finish. case_decide; cbn; auto. }
    assert (Hsnd : forall failed, snd (finish failed) = failed).
    { intros failed. unfold finish. by case_decide. }
    destruct fm as [|file rest].
    - unfold ret. cbn [fst snd length]. rewrite Hsnd. split; [apply Hfin|lia].
    - destruct (oras_login env u p w1) as [[[|]|e] w2].
      + rewrite process_files_outcomes.
        pose proof (file_outcomes_length env T o u p n d (file :: rest) w2) as Hlenf.
        destruct (file_outcomes _ _ _ _ _ _ _ (file :: rest) w2) as [oks w3].
        cbn [fst snd] in *.
        pose proof (count_false_nonneg oks). pose proof (count_false_le_length oks).
        unfold ret. cbn [fst snd]. rewrite Hsnd. split; [apply Hfin|lia].
      + unfold ret. cbn [fst snd exit_code length]. split; [by right|lia].
      + unfold ret. cbn [fst snd exit_code length]. split; [by right|lia]. }
  split; [apply Hmain|]. split; [apply Hmain|].
  unfold script. destruct config as [config|]; [|by right].
  unfold bind.
  destruct (verify_required_tools_probes subprocess_run (required_tools config) w)
    as (_ & Hexit & _).
  destruct (verify_required_tools subprocess_run (required_tools config) w)
    as [checked w1]. cbn [fst] in Hexit.
  destruct checked as [|code|e]; [|right; by apply Hexit..].
  destruct (negb _ || negb _ || negb _); [by right|].
  match goal with
  | |- context [main ?e ?t ?o ?u ?p ?n ?d ?dm ?fm ?w0] =>
      destruct (Hmain o u p n d dm fm w0) as [H _];
      destruct (main e t o u p n d dm fm w0) as [[term failed] w2]
  end.
  exact H.
Qed.

(** ** Pushes and downloads of a file job *)

Section RetryCompare.

Variable op : M bool.
Variable retry_attempts : Z.
Variable retry_delay : N.
Variables f g : Event -> bool.

Hypothesis f_sleep : f (EvSleep retry_delay) = false.
Hypothesis op_compare : forall w1,
  (count f (trace (snd (op w1))) + count g (trace w1)
   <= count g (trace (snd (op w1))) + count f (trace w1))%nat.
Hypothesis op_grows : forall w1,
  (count f (trace w1) <= count f (trace (snd (op w1))))%nat.
Hypothesis op_true : forall w1,
  fst (op w1) = true -> (count f (trace w1) + 1 <= count f (trace (snd (op w1))))%nat.

Local Abbreviation loop := (retry_loop op retry_attempts retry_delay).

Lemma pause_compare (a : Z) (w1 : World) :
  count f (trace (snd (pause retry_attempts retry_delay a w1))) = count f (trace w1)
  /\ (count g (trace w1)
      <= count g (trace (snd (pause retry_attempts retry_delay a w1))))%nat.
Proof.
  unfold pause. case_decide; cbn [sleep ret snd]; [|done].
  rewrite !count_log, f_sleep. lia.
Qed.

(** The loop adds at most as many events of class [f] as of class [g],
    and at least one of class [f] when it succeeds. *)
Lemma retry_loop_compare (attempts : list Z) : forall w,
  (count f (trace (snd (loop attempts w))) + count g (trace w)
   <= count g (trace (snd (loop attempts w))) + count f (trace w))%nat
  /\ (fst (loop attempts w) = true ->
      (count f (trace w) + 1 <= count f (trace (snd (loop attempts w))))%nat).
Proof.
  induction attempts as [|attempt rest IH]; intros w; [by split; [cbn; lia|]|].
  rewrite retry_loop_step.
  pose proof (op_compare w). pose proof (op_grows w). pose proof (op_true w).
  destruct (fst (op w)); cbn [fst snd]; [split; [lia|auto]|].
  destruct (pause_compare attempt (snd (op w))) as [Hpf Hpg].
  destruct (IH (snd (pause retry_attempts retry_delay attempt (snd (op w)))))
    as [IH1 IH2].
  split; [lia|]. intros Ht. specialize (IH2 Ht). lia.
Qed.

End RetryCompare.

(** One pass through the [try] block starts the push tool at most once,
    and exactly once when it ends with [True]. *)
Lemma file_op_pushes (env : Env) (T : gmap string Transformer)
    (source : string) (download_path : Path) (destination : string) (tags : list string)
    (transforms : list (gmap string string)) (owner user password : string)
    (mime : option string) (w : World) :
  let r := file_op env T source download_path destination tags transforms owner user
             password mime w in
  (count is_popen (trace w) <= count is_popen (trace (snd r))
   <= count is_popen (trace w) + 1)%nat
  /\ (fst r = true -> count is_popen (trace (snd r)) = (count is_popen (trace w) + 1)%nat).
Proof.
  cbn zeta. unfold file_op, mirror_file_try, bind.
  destruct (download_file_trace env source download_path w) as (d1 & Hd & Hall).
  assert (H1 : count is_popen (EvHttpGet source :: d1) = O).
  { apply count_none. constructor; [done|].
    eapply Forall_impl; [exact Hall|]. by intros ? ->. }
  destruct (download_file env source download_path w) as [[[]|e] w1]; cbn [snd] in Hd.
  - set (t := match transforms with [] => _ | _ => _ end).
    assert (Ht : trace (snd (t w1)) = trace w1).
    { subst t. destruct transforms; [done|]. apply apply_transforms_trace. }
    destruct (t w1) as [[p|e] w2]; cbn [snd] in Ht.
    + pose proof (push_file_to_registry_trace env p destination tags owner user
                    password mime w2) as Hp.
      destruct (push_file_to_registry _ _ _ _ _ _ _ _ w2) as [b w3].
      unfold ret. cbn [fst snd] in *.
      rewrite Hp, Ht, Hd, !count_app, H1, count_cons, count_nil.
      cbn [is_popen]. split; [lia|]. intros _. lia.
    + unfold ret. cbn [fst snd]. rewrite Ht, Hd, count_app, H1. split; [lia|done].
  - unfold ret. cbn [fst snd]. rewrite Hd, count_app, H1. split; [lia|done].
Qed.

(** X22.  A file job never pushes without a fresh download: in every run
    of [mirror_file] the push tool is started at most as often as the
    source is requested, and it is the only process the job starts; a run
    that returns [True] has started the push tool at least once. *)
Theorem mirror_file_pushes_after_downloads :
  forall (env : Env) (T : gmap string Transformer) (source destination : string)
    (tags : list string) (transforms : list (gmap string string))
    (owner user password : string) (mime : option string)
    (retry_attempts : Z) (retry_delay : N) (w : World),
  let rf := mirror_file env T source destination tags transforms owner user password
              mime retry_attempts retry_delay w in
  (count is_popen (trace (snd rf)) + count is_http_get (trace w)
   <= count is_http_get (trace (snd rf)) + count is_popen (trace w))%nat
  /\ (count is_push (trace (snd rf)) + count is_popen (trace w)
      = count is_popen (trace (snd rf)) + count is_push (trace w))%nat
  /\ (fst rf = true ->
      (count is_popen (trace w) + 1 <= count is_popen (trace (snd rf)))%nat).
Proof.
  intros env T source destination tags transforms owner user password mime
    retry_attempts retry_delay w. cbn zeta.
  destruct (mirror_file_trace env T source destination tags transforms owner user
              password mime retry_attempts retry_delay w) as (delta & Htr & Hall).
  assert (Hpush : (count is_push (trace w ++ EvMkdtemp (mkdtemp env w) :: delta
                                  ++ [EvRmtree (mkdtemp env w)])
                   + count is_popen (trace w)
                   = count is_popen (trace w ++ EvMkdtemp (mkdtemp env w) :: delta
                                     ++ [EvRmtree (mkdtemp env w)])
                     + count is_push (trace w))%nat).
  { rewrite !count_app, !count_cons, !count_app, !count_cons, !count_nil. cbn.
    assert (count is_push delta = count is_popen delta) as ->; [|lia].
    clear Htr. induction Hall as [|e l He _ IH]; [done|].
    rewrite !count_cons, IH. f_equal.
    by destruct He as [-> | [[-> | [p ->]] | ->]]. }
  split; [|split; [rewrite Htr; exact Hpush|]].
  - clear Htr Hpush. rewrite mirror_file_unfold. cbn zeta. cbn [fst snd].
    set (op := file_attempt _ _ _ _ _ _ _ _ _ _ _).
    set (w0 := log (EvMkdtemp (mkdtemp env w)) w).
    destruct (retry_loop_compare op retry_attempts retry_delay is_popen is_http_get
                eq_refl) with (attempts := py_range 1 (retry_attempts + 1)) (w := w0)
      as [Hle _].
    + intros w1. subst op. unfold file_attempt.
      rewrite (file_op_count env T source _ destination tags transforms owner user
                 password mime is_http_get) by apply quiet_is_http_get.
      destruct (file_op_pushes env T source
                  (path_join (mkdtemp env w) (PyStr.last_segment source)) destination
                  tags transforms owner user password mime w1) as [[_ H] _].
      cbn. lia.
    + intros w1. subst op. unfold file_attempt.
      by destruct (file_op_pushes env T source
                     (path_join (mkdtemp env w) (PyStr.last_segment source)) destination
                     tags transforms owner user password mime w1) as [[H _] _].
    + intros w1 Ht. subst op. unfold file_attempt in *.
      destruct (file_op_pushes env T source
                  (path_join (mkdtemp env w) (PyStr.last_segment source)) destination
                  tags transforms owner user password mime w1) as [_ H].
      rewrite (H Ht). lia.
    + rewrite cleanup_tmpdir_count_gen by done.
      rewrite cleanup_tmpdir_count by apply quiet_is_http_get.
      subst w0. rewrite !count_log in Hle. cbn in Hle. lia.
  - clear Htr Hpush. rewrite mirror_file_unfold. cbn zeta. cbn [fst snd].
    set (op := file_attempt _ _ _ _ _ _ _ _ _ _ _).
    set (w0 := log (EvMkdtemp (mkdtemp env w)) w).
    destruct (retry_loop_compare op retry_attempts retry_delay is_popen is_http_get
                eq_refl) with (attempts := py_range 1 (retry_attempts + 1)) (w := w0)
      as [_ Hone].
    + intros w1. subst op. unfold file_attempt.
      rewrite (file_op_count env T source _ destination tags transforms owner user
                 password mime is_http_get) by apply quiet_is_http_get.
      destruct (file_op_pushes env T source
                  (path_join (mkdtemp env w) (PyStr.last_segment source)) destination
                  tags transforms owner user password mime w1) as [[_ H] _].
      cbn. lia.
    + intros w1. subst op. unfold file_attempt.
      by destruct (file_op_pushes env T source
                     (path_join (mkdtemp env w) (PyStr.last_segment source)) destination
                     tags transforms owner user password mime w1) as [[H _] _].
    + intros w1 Ht. subst op. unfold file_attempt in *.
      destruct (file_op_pushes env T source
                  (path_join (mkdtemp env w) (PyStr.last_segment source)) destination
                  tags transforms owner user password mime w1) as [_ H].
      rewrite (H Ht). lia.
    + intros Ht. specialize (Hone Ht).
      rewrite cleanup_tmpdir_count_gen by done.
      subst w0. rewrite count_log in Hone. cbn in Hone. lia.
Qed.

(** ** Which name the decompressed file gets *)

Lemma rfind_dot_none (s : string) :
  PyStr.has_char "." s = false -> PyStr.rfind_dot s = None.
Proof.
  induction s as [|c s IH]; [done|]. cbn [PyStr.has_char PyStr.rfind_dot].
  case_decide as Hc; [done|]. intros Hs. by rewrite (IH Hs).
Qed.

Lemma rfind_dot_last (stem ext : string) :
  PyStr.has_char "." ext = false ->
  PyStr.rfind_dot (stem +:+ "." +:+ ext) = Some (String.length stem).
Proof.
  intros Hext. induction stem as [|c stem IH].
  - rewrite PyStrFacts.append_nil, PyStrFacts.append_cons, PyStrFacts.append_nil.
    cbn [PyStr.rfind_dot]. rewrite (rfind_dot_none ext Hext).
    by rewrite decide_True.
  - rewrite PyStrFacts.append_cons. cbn [PyStr.rfind_dot String.length].
    by rewrite IH.
Qed.

Lemma length_append (s t : string) :
  String.length (s +:+ t) = (String.length s + String.length t)%nat.
Proof.
  induction s as [|c s IH]; [done|].
  rewrite PyStrFacts.append_cons. cbn [String.length]. by rewrite IH.
Qed.

Lemma take_append (s t : string) : PyStr.take (String.length s) (s +:+ t) = s.
Proof.
  induction s as [|c s IH]; [by destruct t|].
  rewrite PyStrFacts.append_cons. cbn [String.length PyStr.take]. by rewrite IH.
Qed.

Lemma drop_append (s t : string) : PyStr.drop (String.length s) (s +:+ t) = t.
Proof.
  induction s as [|c s IH]; [done|].
  rewrite PyStrFacts.append_cons. cbn [String.length PyStr.drop]. exact IH.
Qed.

(** X23.  The output name of [gunzip_transformer] is the input name
    without its last extension only: [stem.ext] becomes [stem] (so
    [data.tar.gz] becomes [data.tar]), for a non-empty [stem] and a
    non-empty [ext] without dot.  A name without any dot and a name whose
    only dot is its first character (a hidden file) are left as they
    are. *)
Theorem with_suffix_strips_last_extension :
  forall (dir stem ext : string),
  PyStr.has_char "." ext = false ->
  (stem <> "" -> ext <> "" ->
     suffix (mkPath dir (stem +:+ "." +:+ ext)) = "." +:+ ext
     /\ with_suffix (mkPath dir (stem +:+ "." +:+ ext)) "" = Ok (mkPath dir stem))
  /\ (ext <> "" -> with_suffix (mkPath dir ext) "" = Ok (mkPath dir ext))
  /\ with_suffix (mkPath dir ("." +:+ ext)) "" = Ok (mkPath dir ("." +:+ ext)).
Proof.
  intros dir stem ext Hext. split; [|split].
  - intros Hstem Hne.
    assert (Hsuf : suffix (mkPath dir (stem +:+ "." +:+ ext)) = "." +:+ ext).
    { unfold suffix. cbn [name]. rewrite rfind_dot_last by done.
      rewrite decide_True.
      - apply drop_append.
      - rewrite length_append, PyStrFacts.append_cons, PyStrFacts.append_nil.
        cbn [String.length]. destruct stem; [done|]. destruct ext; [done|].
        cbn [String.length]. lia. }
    split; [done|].
    rewrite PathFacts.with_suffix_empty. cbn [name parent].
    rewrite decide_False by (by destruct stem).
    rewrite Hsuf. rewrite decide_False by done.
    do 2 f_equal. rewrite length_append.
    replace (String.length stem + String.length ("." +:+ ext)
             - String.length ("." +:+ ext))%nat with (String.length stem) by lia.
    apply take_append.
  - intros Hne. rewrite PathFacts.with_suffix_empty. cbn [name].
    rewrite decide_False by done.
    unfold suffix. cbn [name]. rewrite rfind_dot_none by done.
    by rewrite decide_True.
  - rewrite PathFacts.with_suffix_empty. cbn [name].
    rewrite decide_False by done.
    unfold suffix. cbn [name].
    pose proof (rfind_dot_last "" ext Hext) as H.
    rewrite PyStrFacts.append_nil in H. rewrite H.
    change (String.length "") with 0%nat. cbv iota beta.
    destruct (decide (0 < 0 < String.length ("." +:+ ext) - 1)%nat) as [?|_]; [lia|].
    by rewrite decide_True.
Qed.

Lemma with_suffix_strips_last_extension_witness :
  PyStr.has_char "." "gz" = false /\ "data.tar" <> "" /\ "gz" <> ""
  /\ with_suffix (mkPath "/tmp/tmpmirror" "data.tar.gz") ""
     = Ok (mkPath "/tmp/tmpmirror" "data.tar").
Proof.
  destruct (with_suffix_strips_last_extension "/tmp/tmpmirror" "data.tar" "gz" eq_refl)
    as [H _].
  split; [reflexivity|]. split; [done|]. split; [done|].
  exact (proj2 (H ltac:(done) ltac:(done))).
Defined.

(** ** What a file job pushes *)

Lemma gunzip_transformer_decodes (gzip_read : bytes -> GzResult) (p out : Path)
    (files : gmap Path bytes) (content data : bytes) :
  with_suffix p "" = Ok out -> out <> p -> is_directory files out = false ->
  files !! p = Some content -> gzip_read content = GzData data ->
  gunzip_transformer gzip_read p files = (Ok out, <[out := data]> files).
Proof.
  intros Hw Hne Hd Hp Hread. unfold gunzip_transformer. rewrite Hw, Hp, Hd.
  rewrite lookup_insert_ne, Hp by done. cbn [default]. unfold id.
  by rewrite Hread, insert_insert_eq.
Qed.

Lemma download_file_ok (env : Env) (url : string) (output_path : Path) (w w1 : World) :
  download_file env url output_path w = (Ok tt, w1) ->
  exists status body,
    http_get env w url = HttpResponse status body true
    /\ w1 = write_file output_path body
              (log (EvOpenWrite output_path) (log (EvHttpGet url) w)).
Proof.
  unfold download_file.
  destruct (http_get env w url) as [e|status body complete|status];
    [done| |by case_decide].
  case_decide; [done|].
  destruct (is_directory _ output_path); [done|].
  destruct complete; [|done]. intros [= <-]. by exists status, body.
Qed.

(** X24.  What a file job hands to the push tool.  When [download_file]
    returns, the download path holds the whole body of the response, and
    a job without transforms pushes that file itself.  A job whose
    transform is [gunzip], whose download is the compression of [data],
    whose file name has a suffix and whose output path is not a directory,
    pushes the file next to the download with the suffix cut off, and at
    the moment of the push that file holds exactly [data].  In both cases
    the outcome of the attempt is the outcome of the push. *)
Theorem file_attempt_pushes_processed_file :
  forall (gzip_compress : bytes -> bytes) (gzip_read : bytes -> GzResult),
  (forall data, gzip_read (gzip_compress data) = GzData data) ->
  forall (env : Env) (source destination : string) (tags : list string)
    (owner user password : string) (mime : option string) (tmpdir : string)
    (w w1 : World),
  let T := TRANSFORMERS0 gzip_read in
  let download_path := path_join tmpdir (PyStr.last_segment source) in
  download_file env source download_path w = (Ok tt, w1) ->
  (mirror_file_try env T source download_path destination tags [] owner user password
     mime w
   = (let (b, w3) := push_file_to_registry env download_path destination tags owner
                       user password mime w1 in (Ok b, w3))
   /\ exists status body,
        http_get env w source = HttpResponse status body true
        /\ fs w1 !! download_path = Some body)
  /\ (forall data out,
        fs w1 !! download_path = Some (gzip_compress data) ->
        suffix download_path <> "" ->
        with_suffix download_path "" = Ok out ->
        is_directory (fs w1) out = false ->
        let w2 := mkWorld (<[out := data]> (fs w1)) (trace w1) in
        mirror_file_try env T source download_path destination tags
          [step_of_type "gunzip"] owner user password mime w
        = (let (b, w3) := push_file_to_registry env out destination tags owner user
                            password mime w2 in (Ok b, w3))
        /\ fs w2 !! out = Some data
        /\ parent out = tmpdir).
Proof.
  intros gzip_compress gzip_read Hround env source destination tags owner user password
    mime tmpdir w w1 T download_path Hd.
  split.
  - split.
    + unfold mirror_file_try, bind. rewrite Hd. unfold ret.
      by destruct (push_file_to_registry _ _ _ _ _ _ _ _ w1).
    + destruct (download_file_ok _ _ _ _ _ Hd) as (status & body & Hget & ->).
      exists status, body. split; [done|]. apply lookup_insert_eq.
  - intros data out Hfile Hsuf Hw Hdir w2.
    destruct (PathFacts.with_suffix_strips download_path Hsuf)
      as (out' & Hw' & Hparent & _ & Hne).
    assert (out' = out) as -> by congruence.
    assert (Hg : gunzip_transformer gzip_read download_path (fs w1)
                 = (Ok out, <[out := data]> (fs w1))).
    { by apply (gunzip_transformer_decodes gzip_read download_path out (fs w1)
                  (gzip_compress data) data). }
    split; [|split; [apply lookup_insert_eq|done]].
    unfold mirror_file_try, bind. rewrite Hd.
    rewrite apply_transforms_step.
    assert (resolve_step T (step_of_type "gunzip")
            = Some (gunzip_transformer gzip_read)) as ->.
    { unfold resolve_step, step_of_type. rewrite lookup_singleton_eq. cbn.
      apply lookup_insert_eq. }
    unfold run_transformer. rewrite Hg. cbn [apply_transforms]. unfold ret.
    fold w2. by destruct (push_file_to_registry _ _ _ _ _ _ _ _ w2).
Qed.

Lemma file_attempt_pushes_processed_file_witness :
  let env := env_ok (framed_compress [x01; x02]) in
  let p := mkPath "/tmp/tmpmirror" "data.json.gz" in
  let out := mkPath "/tmp/tmpmirror" "data.json" in
  let w1 := write_file p (framed_compress [x01; x02])
              (log (EvOpenWrite p)
                 (log (EvHttpGet "https://example.org/data.json.gz") empty_world)) in
  (forall data, framed_read (framed_compress data) = GzData data)
  /\ download_file env "https://example.org/data.json.gz" p empty_world = (Ok tt, w1)
  /\ fs w1 !! p = Some (framed_compress [x01; x02])
  /\ suffix p <> ""
  /\ with_suffix p "" = Ok out
  /\ is_directory (fs w1) out = false
  /\ fst (mirror_file_try env (TRANSFORMERS0 framed_read)
            "https://example.org/data.json.gz" p "ghcr.io/acme/data" ["latest"]
            [step_of_type "gunzip"] "acme" "user" "token" None empty_world)
     = Ok true.
Proof.
  intros env p out w1.
  assert (Hround : forall data, framed_read (framed_compress data) = GzData data)
    by reflexivity.
  assert (Hd : download_file env "https://example.org/data.json.gz"
                 (path_join "/tmp/tmpmirror"
                    (PyStr.last_segment "https://example.org/data.json.gz"))
                 empty_world = (Ok tt, w1)) by reflexivity.
  assert (Hfile : fs w1 !! p = Some (framed_compress [x01; x02]))
    by apply lookup_insert_eq.
  assert (Hsuf : suffix p <> "") by (vm_compute; discriminate).
  assert (Hw : with_suffix p "" = Ok out) by (vm_compute; reflexivity).
  assert (Hdir : is_directory (fs w1) out = false)
    by (apply is_directory_name; discriminate).
  destruct (file_attempt_pushes_processed_file framed_compress framed_read Hround env
              "https://example.org/data.json.gz" "ghcr.io/acme/data" ["latest"]
              "acme" "user" "token" None "/tmp/tmpmirror" empty_world w1 Hd) as [_ H].
  destruct (H [x01; x02] out Hfile Hsuf Hw Hdir) as (Heq & _ & _).
  split; [exact Hround|]. split; [exact Hd|]. split; [exact Hfile|].
  split; [exact Hsuf|]. split; [exact Hw|]. split; [exact Hdir|].
  change (path_join "/tmp/tmpmirror"
            (PyStr.last_segment "https://example.org/data.json.gz")) with p in Heq.
  rewrite Heq. reflexivity.
Defined.
